(** * SceneValidator: rule loading, scene validation and report rendering

    A shallow embedding of [tools/scene_validator/scene_validator.py].

    - [Py] gives the fragment of Python the validator runs on: the values
      that [json.load] produces, exceptions as a result type, and the
      built-in operations the source applies to those values ([in],
      subscripting, [len], truthiness, [==], [str] and [repr]).
    - [SceneValidator] embeds the methods of the class of the same name,
      statement by statement, and states what they guarantee. *)

From Stdlib Require Import ZArith List String Ascii Bool Lia.
From Stdlib Require Import PrimFloat FloatOps SpecFloat DecimalString.
Import ListNotations.

Set Warnings "-inexact-float,-register-all".
Local Open Scope list_scope.
Local Open Scope string_scope.

(* ===================================================================== *)
(** * The Python fragment *)
(* ===================================================================== *)

Module Py.

(** ** Exceptions

    Every [except] clause of the source catches [Exception], so only the
    fact that something was raised is ever observed; the constructor
    records which built-in raised. *)

Inductive exc : Type :=
| TypeError
| KeyError.

Inductive res (A : Type) : Type :=
| Ok (a : A)
| Raise (e : exc).

Arguments Ok {A} a.
Arguments Raise {A} e.

Definition bind {A B : Type} (m : res A) (k : A -> res B) : res B :=
  match m with
  | Ok a => k a
  | Raise e => Raise e
  end.

Notation "x <- m ;; k" := (bind m (fun x => k))
  (at level 61, m at next level, right associativity).

(** ** Values

    What [json.load] returns: [None], booleans, unbounded integers,
    binary64 floats, strings, lists, and dicts with string keys.  A dict
    keeps its entries in insertion order, as Python does; a [str] is kept as
    its UTF-8 bytes.  A float that is NaN stands for the one NaN object of
    the json module, which is what the parser returns for every [NaN] it
    reads. *)

Inductive value : Type :=
| VNone
| VBool (b : bool)
| VInt (n : Z)
| VFloat (x : float)
| VStr (s : string)
| VList (items : list value)
| VDict (entries : list (string * value)).

Abbreviation dict := (list (string * value)).

(** ** Dict primitives *)

Fixpoint dict_get {A : Type} (k : string) (d : list (string * A)) : option A :=
  match d with
  | [] => None
  | (k', v) :: d' => if String.eqb k k' then Some v else dict_get k d'
  end.

Definition dict_has {A : Type} (k : string) (d : list (string * A)) : bool :=
  match dict_get k d with
  | Some _ => true
  | None => false
  end.

(** [d[k] = v]: an existing key keeps its position, a new key goes last. *)
Fixpoint dict_set {A : Type} (k : string) (v : A) (d : list (string * A))
  : list (string * A) :=
  match d with
  | [] => [(k, v)]
  | (k', v') :: d' =>
      if String.eqb k k' then (k, v) :: d' else (k', v') :: dict_set k v d'
  end.

(** ** Strings *)

(** [t in s] for two strings. *)
Fixpoint substring_of (t s : string) : bool :=
  String.prefix t s
  || match s with
     | EmptyString => false
     | String _ s' => substring_of t s'
     end.

Definition is_continuation_byte (c : ascii) : bool :=
  let n := N_of_ascii c in
  (N.leb 128 n && N.ltb n 192)%bool.

Definition starts_with_continuation (s : string) : bool :=
  match s with
  | String c _ => is_continuation_byte c
  | EmptyString => false
  end.

(** The characters of a string, each as a string of its own: a UTF-8 lead
    byte takes the continuation bytes that follow it. *)
Fixpoint chars (s : string) : list string :=
  match s with
  | EmptyString => []
  | String c s' =>
      match chars s' with
      | t :: ts =>
          if starts_with_continuation t then String c t :: ts
          else String c EmptyString :: t :: ts
      | [] => [String c EmptyString]
      end
  end.

Definition int_str (n : Z) : string := NilZero.string_of_int (Z.to_int n).

Definition hex_digit (n : N) : ascii :=
  if N.ltb n 10 then ascii_of_N (48 + n) else ascii_of_N (87 + n).

Definition double_quote : ascii := "034"%char.
Definition single_quote : ascii := "039"%char.
Definition backslash : ascii := "092"%char.

Definition has_char (c : ascii) (s : string) : bool :=
  existsb (Ascii.eqb c) (list_ascii_of_string s).

(** The code point that the UTF-8 bytes of one character stand for. *)
Definition code_point (t : string) : N :=
  match t with
  | EmptyString => 0
  | String lead rest =>
      let n := N_of_ascii lead in
      let head :=
        match String.length rest with
        | O => n
        | S O => N.modulo n 32
        | S (S O) => N.modulo n 16
        | _ => N.modulo n 8
        end in
      fold_left (fun acc c => acc * 64 + N.modulo (N_of_ascii c) 64)
        (list_ascii_of_string rest) head
  end%N.

(** The code points beyond ASCII that [str.isprintable] refuses, as closed
    ranges: the categories Other and Separator of the Unicode database,
    here the one of version 14.0 that CPython 3.11 carries. *)
Definition unprintable_ranges : list (N * N) :=
  [ (128, 160); (173, 173); (888, 889); (896, 899); (907, 907); (909, 909);
    (930, 930); (1328, 1328); (1367, 1368); (1419, 1420); (1424, 1424);
    (1480, 1487); (1515, 1518); (1525, 1541); (1564, 1564); (1757, 1757);
    (1806, 1807); (1867, 1868); (1970, 1983); (2043, 2044); (2094, 2095);
    (2111, 2111); (2140, 2141); (2143, 2143); (2155, 2159); (2191, 2199);
    (2274, 2274); (2436, 2436); (2445, 2446); (2449, 2450); (2473, 2473);
    (2481, 2481); (2483, 2485); (2490, 2491); (2501, 2502); (2505, 2506);
    (2511, 2518); (2520, 2523); (2526, 2526); (2532, 2533); (2559, 2560);
    (2564, 2564); (2571, 2574); (2577, 2578); (2601, 2601); (2609, 2609);
    (2612, 2612); (2615, 2615); (2618, 2619); (2621, 2621); (2627, 2630);
    (2633, 2634); (2638, 2640); (2642, 2648); (2653, 2653); (2655, 2661);
    (2679, 2688); (2692, 2692); (2702, 2702); (2706, 2706); (2729, 2729);
    (2737, 2737); (2740, 2740); (2746, 2747); (2758, 2758); (2762, 2762);
    (2766, 2767); (2769, 2783); (2788, 2789); (2802, 2808); (2816, 2816);
    (2820, 2820); (2829, 2830); (2833, 2834); (2857, 2857); (2865, 2865);
    (2868, 2868); (2874, 2875); (2885, 2886); (2889, 2890); (2894, 2900);
    (2904, 2907); (2910, 2910); (2916, 2917); (2936, 2945); (2948, 2948);
    (2955, 2957); (2961, 2961); (2966, 2968); (2971, 2971); (2973, 2973);
    (2976, 2978); (2981, 2983); (2987, 2989); (3002, 3005); (3011, 3013);
    (3017, 3017); (3022, 3023); (3025, 3030); (3032, 3045); (3067, 3071);
    (3085, 3085); (3089, 3089); (3113, 3113); (3130, 3131); (3141, 3141);
    (3145, 3145); (3150, 3156); (3159, 3159); (3163, 3164); (3166, 3167);
    (3172, 3173); (3184, 3190); (3213, 3213); (3217, 3217); (3241, 3241);
    (3252, 3252); (3258, 3259); (3269, 3269); (3273, 3273); (3278, 3284);
    (3287, 3292); (3295, 3295); (3300, 3301); (3312, 3312); (3315, 3327);
    (3341, 3341); (3345, 3345); (3397, 3397); (3401, 3401); (3408, 3411);
    (3428, 3429); (3456, 3456); (3460, 3460); (3479, 3481); (3506, 3506);
    (3516, 3516); (3518, 3519); (3527, 3529); (3531, 3534); (3541, 3541);
    (3543, 3543); (3552, 3557); (3568, 3569); (3573, 3584); (3643, 3646);
    (3676, 3712); (3715, 3715); (3717, 3717); (3723, 3723); (3748, 3748);
    (3750, 3750); (3774, 3775); (3781, 3781); (3783, 3783); (3790, 3791);
    (3802, 3803); (3808, 3839); (3912, 3912); (3949, 3952); (3992, 3992);
    (4029, 4029); (4045, 4045); (4059, 4095); (4294, 4294); (4296, 4300);
    (4302, 4303); (4681, 4681); (4686, 4687); (4695, 4695); (4697, 4697);
    (4702, 4703); (4745, 4745); (4750, 4751); (4785, 4785); (4790, 4791);
    (4799, 4799); (4801, 4801); (4806, 4807); (4823, 4823); (4881, 4881);
    (4886, 4887); (4955, 4956); (4989, 4991); (5018, 5023); (5110, 5111);
    (5118, 5119); (5760, 5760); (5789, 5791); (5881, 5887); (5910, 5918);
    (5943, 5951); (5972, 5983); (5997, 5997); (6001, 6001); (6004, 6015);
    (6110, 6111); (6122, 6127); (6138, 6143); (6158, 6158); (6170, 6175);
    (6265, 6271); (6315, 6319); (6390, 6399); (6431, 6431); (6444, 6447);
    (6460, 6463); (6465, 6467); (6510, 6511); (6517, 6527); (6572, 6575);
    (6602, 6607); (6619, 6621); (6684, 6685); (6751, 6751); (6781, 6782);
    (6794, 6799); (6810, 6815); (6830, 6831); (6863, 6911); (6989, 6991);
    (7039, 7039); (7156, 7163); (7224, 7226); (7242, 7244); (7305, 7311);
    (7355, 7356); (7368, 7375); (7419, 7423); (7958, 7959); (7966, 7967);
    (8006, 8007); (8014, 8015); (8024, 8024); (8026, 8026); (8028, 8028);
    (8030, 8030); (8062, 8063); (8117, 8117); (8133, 8133); (8148, 8149);
    (8156, 8156); (8176, 8177); (8181, 8181); (8191, 8207); (8232, 8239);
    (8287, 8303); (8306, 8307); (8335, 8335); (8349, 8351); (8385, 8399);
    (8433, 8447); (8588, 8591); (9255, 9279); (9291, 9311); (11124, 11125);
    (11158, 11158); (11508, 11512); (11558, 11558); (11560, 11564);
    (11566, 11567); (11624, 11630); (11633, 11646); (11671, 11679);
    (11687, 11687); (11695, 11695); (11703, 11703); (11711, 11711);
    (11719, 11719); (11727, 11727); (11735, 11735); (11743, 11743);
    (11870, 11903); (11930, 11930); (12020, 12031); (12246, 12271);
    (12284, 12288); (12352, 12352); (12439, 12440); (12544, 12548);
    (12592, 12592); (12687, 12687); (12772, 12783); (12831, 12831);
    (42125, 42127); (42183, 42191); (42540, 42559); (42744, 42751);
    (42955, 42959); (42962, 42962); (42964, 42964); (42970, 42993);
    (43053, 43055); (43066, 43071); (43128, 43135); (43206, 43213);
    (43226, 43231); (43348, 43358); (43389, 43391); (43470, 43470);
    (43482, 43485); (43519, 43519); (43575, 43583); (43598, 43599);
    (43610, 43611); (43715, 43738); (43767, 43776); (43783, 43784);
    (43791, 43792); (43799, 43807); (43815, 43815); (43823, 43823);
    (43884, 43887); (44014, 44015); (44026, 44031); (55204, 55215);
    (55239, 55242); (55292, 63743); (64110, 64111); (64218, 64255);
    (64263, 64274); (64280, 64284); (64311, 64311); (64317, 64317);
    (64319, 64319); (64322, 64322); (64325, 64325); (64451, 64466);
    (64912, 64913); (64968, 64974); (64976, 65007); (65050, 65055);
    (65107, 65107); (65127, 65127); (65132, 65135); (65141, 65141);
    (65277, 65280); (65471, 65473); (65480, 65481); (65488, 65489);
    (65496, 65497); (65501, 65503); (65511, 65511); (65519, 65531);
    (65534, 65535); (65548, 65548); (65575, 65575); (65595, 65595);
    (65598, 65598); (65614, 65615); (65630, 65663); (65787, 65791);
    (65795, 65798); (65844, 65846); (65935, 65935); (65949, 65951);
    (65953, 65999); (66046, 66175); (66205, 66207); (66257, 66271);
    (66300, 66303); (66340, 66348); (66379, 66383); (66427, 66431);
    (66462, 66462); (66500, 66503); (66518, 66559); (66718, 66719);
    (66730, 66735); (66772, 66775); (66812, 66815); (66856, 66863);
    (66916, 66926); (66939, 66939); (66955, 66955); (66963, 66963);
    (66966, 66966); (66978, 66978); (66994, 66994); (67002, 67002);
    (67005, 67071); (67383, 67391); (67414, 67423); (67432, 67455);
    (67462, 67462); (67505, 67505); (67515, 67583); (67590, 67591);
    (67593, 67593); (67638, 67638); (67641, 67643); (67645, 67646);
    (67670, 67670); (67743, 67750); (67760, 67807); (67827, 67827);
    (67830, 67834); (67868, 67870); (67898, 67902); (67904, 67967);
    (68024, 68027); (68048, 68049); (68100, 68100); (68103, 68107);
    (68116, 68116); (68120, 68120); (68150, 68151); (68155, 68158);
    (68169, 68175); (68185, 68191); (68256, 68287); (68327, 68330);
    (68343, 68351); (68406, 68408); (68438, 68439); (68467, 68471);
    (68498, 68504); (68509, 68520); (68528, 68607); (68681, 68735);
    (68787, 68799); (68851, 68857); (68904, 68911); (68922, 69215);
    (69247, 69247); (69290, 69290); (69294, 69295); (69298, 69375);
    (69416, 69423); (69466, 69487); (69514, 69551); (69580, 69599);
    (69623, 69631); (69710, 69713); (69750, 69758); (69821, 69821);
    (69827, 69839); (69865, 69871); (69882, 69887); (69941, 69941);
    (69960, 69967); (70007, 70015); (70112, 70112); (70133, 70143);
    (70162, 70162); (70207, 70271); (70279, 70279); (70281, 70281);
    (70286, 70286); (70302, 70302); (70314, 70319); (70379, 70383);
    (70394, 70399); (70404, 70404); (70413, 70414); (70417, 70418);
    (70441, 70441); (70449, 70449); (70452, 70452); (70458, 70458);
    (70469, 70470); (70473, 70474); (70478, 70479); (70481, 70486);
    (70488, 70492); (70500, 70501); (70509, 70511); (70517, 70655);
    (70748, 70748); (70754, 70783); (70856, 70863); (70874, 71039);
    (71094, 71095); (71134, 71167); (71237, 71247); (71258, 71263);
    (71277, 71295); (71354, 71359); (71370, 71423); (71451, 71452);
    (71468, 71471); (71495, 71679); (71740, 71839); (71923, 71934);
    (71943, 71944); (71946, 71947); (71956, 71956); (71959, 71959);
    (71990, 71990); (71993, 71994); (72007, 72015); (72026, 72095);
    (72104, 72105); (72152, 72153); (72165, 72191); (72264, 72271);
    (72355, 72367); (72441, 72703); (72713, 72713); (72759, 72759);
    (72774, 72783); (72813, 72815); (72848, 72849); (72872, 72872);
    (72887, 72959); (72967, 72967); (72970, 72970); (73015, 73017);
    (73019, 73019); (73022, 73022); (73032, 73039); (73050, 73055);
    (73062, 73062); (73065, 73065); (73103, 73103); (73106, 73106);
    (73113, 73119); (73130, 73439); (73465, 73647); (73649, 73663);
    (73714, 73726); (74650, 74751); (74863, 74863); (74869, 74879);
    (75076, 77711); (77811, 77823); (78895, 82943); (83527, 92159);
    (92729, 92735); (92767, 92767); (92778, 92781); (92863, 92863);
    (92874, 92879); (92910, 92911); (92918, 92927); (92998, 93007);
    (93018, 93018); (93026, 93026); (93048, 93052); (93072, 93759);
    (93851, 93951); (94027, 94030); (94088, 94094); (94112, 94175);
    (94181, 94191); (94194, 94207); (100344, 100351); (101590, 101631);
    (101641, 110575); (110580, 110580); (110588, 110588); (110591, 110591);
    (110883, 110927); (110931, 110947); (110952, 110959); (111356, 113663);
    (113771, 113775); (113789, 113791); (113801, 113807); (113818, 113819);
    (113824, 118527); (118574, 118575); (118599, 118607); (118724, 118783);
    (119030, 119039); (119079, 119080); (119155, 119162); (119275, 119295);
    (119366, 119519); (119540, 119551); (119639, 119647); (119673, 119807);
    (119893, 119893); (119965, 119965); (119968, 119969); (119971, 119972);
    (119975, 119976); (119981, 119981); (119994, 119994); (119996, 119996);
    (120004, 120004); (120070, 120070); (120075, 120076); (120085, 120085);
    (120093, 120093); (120122, 120122); (120127, 120127); (120133, 120133);
    (120135, 120137); (120145, 120145); (120486, 120487); (120780, 120781);
    (121484, 121498); (121504, 121504); (121520, 122623); (122655, 122879);
    (122887, 122887); (122905, 122906); (122914, 122914); (122917, 122917);
    (122923, 123135); (123181, 123183); (123198, 123199); (123210, 123213);
    (123216, 123535); (123567, 123583); (123642, 123646); (123648, 124895);
    (124903, 124903); (124908, 124908); (124911, 124911); (124927, 124927);
    (125125, 125126); (125143, 125183); (125260, 125263); (125274, 125277);
    (125280, 126064); (126133, 126208); (126270, 126463); (126468, 126468);
    (126496, 126496); (126499, 126499); (126501, 126502); (126504, 126504);
    (126515, 126515); (126520, 126520); (126522, 126522); (126524, 126529);
    (126531, 126534); (126536, 126536); (126538, 126538); (126540, 126540);
    (126544, 126544); (126547, 126547); (126549, 126550); (126552, 126552);
    (126554, 126554); (126556, 126556); (126558, 126558); (126560, 126560);
    (126563, 126563); (126565, 126566); (126571, 126571); (126579, 126579);
    (126584, 126584); (126589, 126589); (126591, 126591); (126602, 126602);
    (126620, 126624); (126628, 126628); (126634, 126634); (126652, 126703);
    (126706, 126975); (127020, 127023); (127124, 127135); (127151, 127152);
    (127168, 127168); (127184, 127184); (127222, 127231); (127406, 127461);
    (127491, 127503); (127548, 127551); (127561, 127567); (127570, 127583);
    (127590, 127743); (128728, 128732); (128749, 128751); (128765, 128767);
    (128884, 128895); (128985, 128991); (129004, 129007); (129009, 129023);
    (129036, 129039); (129096, 129103); (129114, 129119); (129160, 129167);
    (129198, 129199); (129202, 129279); (129620, 129631); (129646, 129647);
    (129653, 129655); (129661, 129663); (129671, 129679); (129709, 129711);
    (129723, 129727); (129734, 129743); (129754, 129759); (129768, 129775);
    (129783, 129791); (129939, 129939); (129995, 130031); (130042, 131071);
    (173792, 173823); (177977, 177983); (178206, 178207); (183970, 183983);
    (191457, 194559); (195102, 196607); (201547, 917759);
    (918000, 1114111) ]%N.

Definition printable (n : N) : bool :=
  negb (existsb (fun r => N.leb (fst r) n && N.leb n (snd r))
          unprintable_ranges).

(** [n] in [width] hexadecimal digits. *)
Fixpoint hex_digits (width : nat) (n : N) : string :=
  match width with
  | O => EmptyString
  | S width' =>
      hex_digits width' (N.div n 16)
      ++ String (hex_digit (N.modulo n 16)) EmptyString
  end.

(** [repr] of a [str]: single quotes unless the text has a single quote and
    no double quote; backslash, the chosen quote, tab, newline and carriage
    return are escaped, other control characters are written [\xhh].  A
    character beyond ASCII is copied when it is printable and written
    [\xhh], [\uhhhh] or [\Uhhhhhhhh] by the size of its code point when it
    is not. *)
Definition str_repr_char (quote : ascii) (t : string) : string :=
  let n := code_point t in
  if N.ltb n 128 then
    let c := ascii_of_N n in
    if (Ascii.eqb c quote || Ascii.eqb c backslash)%bool then
      String backslash (String c EmptyString)
    else if N.eqb n 9 then String backslash "t"
    else if N.eqb n 10 then String backslash "n"
    else if N.eqb n 13 then String backslash "r"
    else if (N.ltb n 32 || N.eqb n 127)%bool then
      String backslash (String "x" (hex_digits 2 n))
    else String c EmptyString
  else if printable n then t
  else if N.leb n 255 then String backslash (String "x" (hex_digits 2 n))
  else if N.leb n 65535 then String backslash (String "u" (hex_digits 4 n))
  else String backslash (String "U" (hex_digits 8 n)).

Definition str_repr (s : string) : string :=
  let quote :=
    if (has_char single_quote s && negb (has_char double_quote s))%bool
    then double_quote else single_quote in
  String quote
    (String.concat "" (map (str_repr_char quote) (chars s))
     ++ String quote EmptyString).

(** ** Floats

    [repr] of a float is the shortest decimal text that reads back as the
    same binary64 value, the closest one to it when several are as short,
    laid out in positional notation when the decimal point falls within
    cpython's window and in exponent notation otherwise. *)

Section FloatRepr.

(** The positive value [m * 2^e].  Quantities are counted in units of
    [2^(e-2)], so that the value is [4m] and the midpoints to its two
    neighbours are whole; [num] and [den] clear the power of two. *)
Variables (m e : Z).

Let den : Z := (2 ^ Z.max 0 (2 - e))%Z.
Let num (x : Z) : Z := (x * 2 ^ Z.max 0 (e - 2))%Z.

Definition mid_value : Z := (4 * m)%Z.
Definition upper_bound : Z := (4 * m + 2)%Z.
Definition lower_bound : Z :=
  (if (m =? 2 ^ 52) && (-1074 <? e) then 4 * m - 1 else 4 * m - 2)%Z.

(** [d * 10^p] against [x] units, both sides cleared of denominators. *)
Definition dec_side (d p : Z) : Z := (d * 10 ^ Z.max 0 p * den)%Z.
Definition bin_side (x p : Z) : Z := (num x * 10 ^ Z.max 0 (- p))%Z.

(** The largest [t] with [10^t <= m * 2^e], searched upwards. *)
Fixpoint exponent10 (fuel : nat) (t : Z) : Z :=
  match fuel with
  | O => t
  | S fuel' =>
      if (dec_side 1 (t + 1) <=? bin_side mid_value (t + 1))%Z
      then exponent10 fuel' (t + 1)%Z else t
  end.

Definition inside (d p : Z) : bool :=
  (if Z.even m
   then (bin_side lower_bound p <=? dec_side d p)
        && (dec_side d p <=? bin_side upper_bound p)
   else (bin_side lower_bound p <? dec_side d p)
        && (dec_side d p <? bin_side upper_bound p))%Z.

(** The nearer of [d] and [d + 1] on the grid [10^p]; the even one on a
    tie. *)
Definition nearer (d p : Z) : Z :=
  let twice := (2 * bin_side mid_value p)%Z in
  let both := (dec_side d p + dec_side (d + 1) p)%Z in
  (if twice <? both then d
   else if both <? twice then d + 1
   else if Z.even d then d else d + 1)%Z.

(** Digits and their power of ten, trying [n], [n + 1], ... digits. *)
Fixpoint shortest (fuel : nat) (t n : Z) : Z * Z :=
  let p := (t - n + 1)%Z in
  let d := (bin_side mid_value p / dec_side 1 p)%Z in
  match fuel with
  | O => (d, p)
  | S fuel' =>
      match inside d p, inside (d + 1) p with
      | true, true => (nearer d p, p)
      | true, false => (d, p)
      | false, true => ((d + 1)%Z, p)
      | false, false => shortest fuel' t (n + 1)%Z
      end
  end.

Definition shortest_decimal : Z * Z :=
  shortest 17 (exponent10 640 (-324)) 1.

End FloatRepr.

Fixpoint strip_zeros_rev (l : list ascii) : list ascii :=
  match l with
  | c :: l' => if Ascii.eqb c "0" then strip_zeros_rev l' else l
  | [] => []
  end.

Definition strip_trailing_zeros (s : string) : string :=
  string_of_list_ascii (rev (strip_zeros_rev (rev (list_ascii_of_string s)))).

Fixpoint zeros (n : nat) : string :=
  match n with
  | O => EmptyString
  | S n' => String "0" (zeros n')
  end.

Definition exponent_str (x : Z) : string :=
  let a := int_str (Z.abs x) in
  (if (x <? 0)%Z then "-" else "+")
  ++ (if Nat.ltb (String.length a) 2 then "0" else "") ++ a.

(** cpython's layout of the digits [ds] with the decimal point after the
    first [decpt] of them. *)
Definition layout (ds : string) (decpt : Z) : string :=
  let n := String.length ds in
  if ((decpt <=? -4) || (16 <? decpt))%Z then
    String.substring 0 1 ds
    ++ (if Nat.ltb 1 n then "." ++ String.substring 1 (n - 1) ds else "")
    ++ "e" ++ exponent_str (decpt - 1)
  else if (decpt <=? 0)%Z then
    "0." ++ zeros (Z.to_nat (- decpt)) ++ ds
  else if (Z.of_nat n <=? decpt)%Z then
    ds ++ zeros (Z.to_nat decpt - n) ++ ".0"
  else
    String.substring 0 (Z.to_nat decpt) ds
    ++ "." ++ String.substring (Z.to_nat decpt) (n - Z.to_nat decpt) ds.

Definition finite_repr (m e : Z) : string :=
  let (d, p) := shortest_decimal m e in
  let all := int_str d in
  layout (strip_trailing_zeros all) (Z.of_nat (String.length all) + p).

Definition float_repr (x : float) : string :=
  match Prim2SF x with
  | S754_zero s => if s then "-0.0" else "0.0"
  | S754_infinity s => if s then "-inf" else "inf"
  | S754_nan => "nan"
  | S754_finite s m e =>
      (if s then "-" else "") ++ finite_repr (Z.pos m) e
  end.

(** A float against an integer: the two are compared exactly. *)
Definition float_eq_int (x : float) (n : Z) : bool :=
  match Prim2SF x with
  | S754_zero _ => (n =? 0)%Z
  | S754_finite s m e =>
      let v := if s then Z.neg m else Z.pos m in
      (if 0 <=? e then v * 2 ^ e =? n else v =? n * 2 ^ (- e))%Z
  | _ => false
  end.

(** ** Built-in operations on values *)

(** [bool(v)]. *)
Definition py_truthy (v : value) : bool :=
  match v with
  | VNone => false
  | VBool b => b
  | VInt n => negb (n =? 0)%Z
  | VFloat x => negb (PrimFloat.eqb x 0%float)
  | VStr s => negb (String.eqb s "")
  | VList items => match items with [] => false | _ :: _ => true end
  | VDict entries => match entries with [] => false | _ :: _ => true end
  end.

Definition bool_int (b : bool) : Z := if b then 1%Z else 0%Z.

(** [a is b] where it can hold without [a == b]: on NaN.  The parser of
    the json module gives one object, [json.decoder.NaN], for every NaN it
    reads, in the rules, in a scene and in a reply alike, and the literals
    of the defaults hold none; so two NaNs are the same object. *)
Definition same_nan (a b : value) : bool :=
  match a, b with
  | VFloat x, VFloat y => PrimFloat.is_nan x && PrimFloat.is_nan y
  | _, _ => false
  end.

(** [a == b].  Booleans are integers, integers and floats compare by their
    exact values, lists compare item by item, dicts compare as sets of
    entries.  Lists and dicts take two items for equal when they are the
    same object, before asking [==]. *)
Fixpoint py_eq (a b : value) {struct a} : bool :=
  match a, b with
  | VNone, VNone => true
  | VBool x, VBool y => Bool.eqb x y
  | VBool x, VInt n => (bool_int x =? n)%Z
  | VBool x, VFloat y => float_eq_int y (bool_int x)
  | VInt n, VBool y => (n =? bool_int y)%Z
  | VInt n, VInt k => (n =? k)%Z
  | VInt n, VFloat y => float_eq_int y n
  | VFloat x, VBool y => float_eq_int x (bool_int y)
  | VFloat x, VInt k => float_eq_int x k
  | VFloat x, VFloat y => PrimFloat.eqb x y
  | VStr s, VStr t => String.eqb s t
  | VList xs, VList ys =>
      (fix items_eq (xs ys : list value) {struct xs} : bool :=
         match xs, ys with
         | [], [] => true
         | x :: xs', y :: ys' =>
             (same_nan x y || py_eq x y) && items_eq xs' ys'
         | _, _ => false
         end) xs ys
  | VDict ea, VDict eb =>
      Nat.eqb (List.length ea) (List.length eb)
      && (fix entries_eq (es : dict) {struct es} : bool :=
            match es with
            | [] => true
            | (k, x) :: es' =>
                match dict_get k eb with
                | Some y => same_nan x y || py_eq x y
                | None => false
                end && entries_eq es'
            end) ea
  | _, _ => false
  end.

(** [a is b or a == b], the test that a list makes of its items. *)
Definition py_same_or_eq (a b : value) : bool := same_nan a b || py_eq a b.

(** [repr(v)] and [str(v)]; the two differ on strings only. *)
Fixpoint py_repr (v : value) : string :=
  match v with
  | VNone => "None"
  | VBool b => if b then "True" else "False"
  | VInt n => int_str n
  | VFloat x => float_repr x
  | VStr s => str_repr s
  | VList items =>
      String.append "["
        (String.append (String.concat ", " (map py_repr items)) "]")
  | VDict entries =>
      String.append "{"
        (String.append
           (String.concat ", "
              (map (fun kv =>
                      String.append (str_repr (fst kv))
                        (String.append ": " (py_repr (snd kv))))
                   entries))
           "}")
  end.

Definition py_str (v : value) : string :=
  match v with
  | VStr s => s
  | _ => py_repr v
  end.

(** [item in container].  A list is searched for an item that is the
    same object or is [==]; a dict is asked for the key, which must be
    hashable; a string is searched for a substring and takes only a string
    on the left; nothing else is a container. *)
Definition py_contains (item container : value) : res bool :=
  match container with
  | VList items => Ok (existsb (fun x => py_same_or_eq x item) items)
  | VDict entries =>
      match item with
      | VStr k => Ok (dict_has k entries)
      | VList _ | VDict _ => Raise TypeError
      | _ => Ok false
      end
  | VStr s =>
      match item with
      | VStr t => Ok (substring_of t s)
      | _ => Raise TypeError
      end
  | _ => Raise TypeError
  end.

(** [container[key]] for a string key: a dict is looked up, everything else
    refuses the subscript. *)
Definition py_getitem (container : value) (key : string) : res value :=
  match container with
  | VDict entries =>
      match dict_get key entries with
      | Some v => Ok v
      | None => Raise KeyError
      end
  | _ => Raise TypeError
  end.

(** [container[key] = v] for a string key. *)
Definition py_setitem (container : value) (key : string) (v : value)
  : res value :=
  match container with
  | VDict entries => Ok (VDict (dict_set key v entries))
  | _ => Raise TypeError
  end.

(** [len(v)]. *)
Definition py_len (v : value) : res nat :=
  match v with
  | VList items => Ok (List.length items)
  | VDict entries => Ok (List.length entries)
  | VStr s => Ok (List.length (chars s))
  | _ => Raise TypeError
  end.

(** The items [list.extend(v)] appends: those of a list, the keys of a
    dict, the characters of a string. *)
Definition py_iter (v : value) : res (list value) :=
  match v with
  | VList items => Ok items
  | VDict entries => Ok (map (fun kv => VStr (fst kv)) entries)
  | VStr s => Ok (map VStr (chars s))
  | _ => Raise TypeError
  end.

End Py.

(* ===================================================================== *)
(** * The validator *)
(* ===================================================================== *)

Module SceneValidator.

Import Py.

(** ** What an instance holds and talks to *)

(** The request of lines 174-185: a fixed text around the serialised scene
    and the serialised previous scenes. *)
Record prompt : Type := {
  current_scene : value;
  previous_scenes : value
}.

(** Lines 188-189 seen from the validator: [generate_content] raises, or
    [json.loads] rejects the text of the response, or the text parses. *)
Inductive reply : Type :=
| CallFails
| NotJson
| Parsed (continuity_analysis : value).

(** [self]: the rules built by [__init__] and the generative model. *)
Record validator : Type := {
  rules : value;
  model : prompt -> reply
}.

(** [open(path)] followed by [json.load]. *)
Inductive load_result : Type :=
| LoadFails
| Loaded (custom_rules : value).

Record ValidationResult : Type := {
  valid : bool;
  errors : list value;
  warnings : list value
}.

(** ** [_load_rules] *)

Definition default_sections : dict :=
  [ ("technical",
     VDict
       [ ("resolution",
          VList [VStr "1920x1080"; VStr "3840x2160"; VStr "4096x2160"]);
         ("frameRate", VList [VInt 24; VInt 25; VInt 30; VInt 60]);
         ("colorSpace", VList [VStr "Rec.709"; VStr "Rec.2020"; VStr "DCI-P3"]);
         ("audioChannels", VList [VInt 2; VFloat 5.1; VFloat 7.1]);
         ("audioSampleRate", VList [VInt 48000; VInt 96000]) ]);
    ("composition",
     VDict
       [ ("enforceRuleOfThirds", VBool true);
         ("enforceHeadroom", VBool true);
         ("enforceLeadingSpace", VBool true) ]);
    ("continuity",
     VDict
       [ ("checkProps", VBool true);
         ("checkWardrobe", VBool true);
         ("checkLighting", VBool true);
         ("checkTimeOfDay", VBool true) ]) ].

Definition default_rules : value := VDict default_sections.

(** Lines 115-117, the loop over the keys of one default section:
    [custom_rules[section]] is read again at every key, and a missing key
    is stored into it. *)
Fixpoint fill_missing_keys (section : string) (defaults : dict)
  (custom_rules : value) : res value :=
  match defaults with
  | [] => Ok custom_rules
  | (key, default) :: defaults' =>
      custom_section <- py_getitem custom_rules section ;;
      present <- py_contains (VStr key) custom_section ;;
      custom_rules <-
        (if present then Ok custom_rules
         else
           custom_section <- py_setitem custom_section key default ;;
           py_setitem custom_rules section custom_section) ;;
      fill_missing_keys section defaults' custom_rules
  end.

(** Lines 113-119, the loop over the default sections. *)
Fixpoint merge_defaults (defaults : dict) (custom_rules : value)
  : res value :=
  match defaults with
  | [] => Ok custom_rules
  | (section, default_section) :: defaults' =>
      present <- py_contains (VStr section) custom_rules ;;
      custom_rules <-
        (if present then
           match default_section with
           | VDict keys => fill_missing_keys section keys custom_rules
           | _ => Raise TypeError
           end
         else py_setitem custom_rules section default_section) ;;
      merge_defaults defaults' custom_rules
  end.

Definition _load_rules (json_load : string -> load_result)
  (rules_path : option string) : value :=
  match rules_path with
  | None => default_rules
  | Some path =>
      if String.eqb path "" then default_rules
      else
        match json_load path with
        | LoadFails => default_rules
        | Loaded custom_rules =>
            match merge_defaults default_sections custom_rules with
            | Ok merged => merged
            | Raise _ => default_rules
            end
        end
  end.

(** ** [validate_scene_json] *)

Definition required_fields : list string :=
  ["sceneName"; "sceneNumber"; "location"; "timeOfDay"; "characters"; "props"].

Definition missing_fields (scene_data : dict) : list string :=
  filter (fun field => negb (dict_has field scene_data)) required_fields.

(** The f-string of lines 158, 161 and 164. *)
Definition invalid_message (label : string) (found allowed : value) : value :=
  VStr ("Invalid " ++ label ++ ": " ++ py_str found
        ++ ". Must be one of " ++ py_str allowed).

(** One of the three tests of lines 157-164; [label] is the wording of the
    message ([resolution], [frame rate], [color space]). *)
Definition check_allowed (tech tech_rules : value) (key label : string)
  (errors : list value) : res (list value) :=
  present <- py_contains (VStr key) tech ;;
  if present then
    found <- py_getitem tech key ;;
    allowed <- py_getitem tech_rules key ;;
    ok <- py_contains found allowed ;;
    if ok then Ok errors
    else Ok (errors ++ [invalid_message label found allowed])%list
  else Ok errors.

(** Lines 153-164. *)
Definition validate_technical (self : validator) (scene_data : dict)
  (errors : list value) : res (list value) :=
  match dict_get "technical" scene_data with
  | None => Ok errors
  | Some tech =>
      tech_rules <- py_getitem (rules self) "technical" ;;
      errors <- check_allowed tech tech_rules "resolution" "resolution" errors ;;
      errors <- check_allowed tech tech_rules "frameRate" "frame rate" errors ;;
      check_allowed tech tech_rules "colorSpace" "color space" errors
  end.

Definition rule_of_thirds_warning : value :=
  VStr "Scene does not follow rule of thirds".

(** Lines 167-170. *)
Definition validate_composition (self : validator) (scene_data : dict)
  (warnings : list value) : res (list value) :=
  match dict_get "composition" scene_data with
  | None => Ok warnings
  | Some comp =>
      composition_rules <- py_getitem (rules self) "composition" ;;
      enforce <- py_getitem composition_rules "enforceRuleOfThirds" ;;
      if py_truthy enforce then
        present <- py_contains (VStr "ruleOfThirds") comp ;;
        if present then
          flag <- py_getitem comp "ruleOfThirds" ;;
          if py_truthy flag then Ok warnings
          else Ok (warnings ++ [rule_of_thirds_warning])%list
        else Ok warnings
      else Ok warnings
  end.

Definition continuity_failure_warning : value :=
  VStr "Could not perform automated continuity check".

(** Lines 191-192 and 194-195: [findings.extend(analysis[key])] when the
    key is there and its value is truthy. *)
Definition extend_from (findings : list value) (analysis : value)
  (key : string) : res (list value) :=
  present <- py_contains (VStr key) analysis ;;
  if present then
    found <- py_getitem analysis key ;;
    if py_truthy found then
      items <- py_iter found ;;
      Ok (findings ++ items)%list
    else Ok findings
  else Ok findings.

(** [scene_data.get('previousScenes', [])]. *)
Definition previous_of (scene_data : dict) : value :=
  match dict_get "previousScenes" scene_data with
  | Some previous => previous
  | None => VList []
  end.

(** The prompt of lines 174-185. *)
Definition request_for (scene_data : dict) : prompt :=
  {| current_scene := VDict scene_data;
     previous_scenes := previous_of scene_data |}.

(** Lines 187-198.  What was appended before an exception stays appended;
    the handler adds its warning to that. *)
Definition analyze_continuity (self : validator) (scene_data : dict)
  (errors warnings : list value) : list value * list value :=
  match model self (request_for scene_data) with
  | CallFails => (errors, warnings ++ [continuity_failure_warning])%list
  | NotJson => (errors, warnings ++ [continuity_failure_warning])%list
  | Parsed continuity_analysis =>
      match extend_from errors continuity_analysis "continuityErrors" with
      | Raise _ => (errors, warnings ++ [continuity_failure_warning])%list
      | Ok errors =>
          match
            extend_from warnings continuity_analysis "continuityWarnings"
          with
          | Raise _ => (errors, warnings ++ [continuity_failure_warning])%list
          | Ok warnings => (errors, warnings)
          end
      end
  end.

(** Line 173 and the block it guards. *)
Definition validate_continuity (self : validator) (scene_data : dict)
  (errors warnings : list value) : res (list value * list value) :=
  continuity_rules <- py_getitem (rules self) "continuity" ;;
  check_props <- py_getitem continuity_rules "checkProps" ;;
  if py_truthy check_props then
    n <- py_len (previous_of scene_data) ;;
    if Nat.ltb 0 n then Ok (analyze_continuity self scene_data errors warnings)
    else Ok (errors, warnings)
  else Ok (errors, warnings).

Definition validate_scene_json (self : validator) (scene_data : dict)
  : res ValidationResult :=
  match missing_fields scene_data with
  | _ :: _ =>
      Ok {| valid := false;
            errors :=
              [VStr ("Missing required fields: "
                     ++ String.concat ", " (missing_fields scene_data))];
            warnings := [] |}
  | [] =>
      errors <- validate_technical self scene_data [] ;;
      warnings <- validate_composition self scene_data [] ;;
      found <- validate_continuity self scene_data errors warnings ;;
      Ok {| valid := Nat.eqb (List.length (fst found)) 0;
            errors := fst found;
            warnings := snd found |}
  end.

(** ** [generate_report] *)

(** The files the report may be written to: what they hold; the paths on
    which the write raises, in [open(path, 'w')] or after it; and what a
    write that raises leaves behind.  [None]: [open] itself raised and the
    file is as it was.  [Some rest]: the file was opened, which emptied it,
    and [rest] is what had reached it when [f.write] or the closing of the
    file raised; it is empty when the text could not be encoded.  A call
    of [generate_report] writes once, and the two say how that write
    goes. *)
Record filesystem : Type := {
  contents : list (string * string);
  refuses : string -> bool;
  leaves : string -> option string
}.

(** The file system with [text] in the file at [path]. *)
Definition put (fs : filesystem) (path text : string) : filesystem :=
  {| contents := dict_set path text (contents fs);
     refuses := refuses fs;
     leaves := leaves fs |}.

(** How lines 299-300 end, and the files after them. *)
Inductive written : Type :=
| Saved (fs : filesystem)
| Failed (fs : filesystem).

Definition write_text (fs : filesystem) (path text : string) : written :=
  if refuses fs path then
    match leaves fs path with
    | None => Failed fs
    | Some rest => Failed (put fs path rest)
    end
  else Saved (put fs path text).

Definition newline : string := String "010"%char EmptyString.

Definition bullet (item : value) : string := "- " ++ py_str item.

Definition generate_report (validation_result : ValidationResult)
  (output_path : option string) (fs : filesystem) : string * filesystem :=
  let report_lines := ["# Scene Validation Report"; ""] in
  let report_lines :=
    (report_lines
     ++ [if valid validation_result then "## ✅ Scene is valid"
         else "## ❌ Scene is invalid"])%list in
  let report_lines := (report_lines ++ [""])%list in
  let report_lines :=
    match errors validation_result with
    | [] => report_lines
    | _ :: _ =>
        (report_lines ++ ["## Errors"]
         ++ map bullet (errors validation_result) ++ [""])%list
    end in
  let report_lines :=
    match warnings validation_result with
    | [] => report_lines
    | _ :: _ =>
        (report_lines ++ ["## Warnings"]
         ++ map bullet (warnings validation_result) ++ [""])%list
    end in
  let report_text := String.concat newline report_lines in
  match output_path with
  | None => (report_text, fs)
  | Some path =>
      if String.eqb path "" then (report_text, fs)
      else
        match write_text fs path report_text with
        | Saved fs' => (report_text, fs')
        | Failed fs' => (report_text, fs')
        end
  end.

(** ** [validate_scene_json] on any parsed document

    [validate_scene_file] and [validate_scene_from_gcs] hand over whatever
    [json.load] gave them, which need not be a dict.  The method is
    written out again here over a [value]; on a dict it is the function
    above. *)

(** What the callers can catch: the errors of the built-ins, and the
    [AttributeError] of [scene_data.get] on a value that has no [get]. *)
Inductive thrown : Type :=
| Builtin (e : exc)
| AttributeError.

Inductive attempt (A : Type) : Type :=
| Returned (a : A)
| Thrown (e : thrown).

Arguments Returned {A} a.
Arguments Thrown {A} e.

Definition attempt_bind {A B : Type} (m : attempt A) (k : A -> attempt B)
  : attempt B :=
  match m with
  | Returned a => k a
  | Thrown e => Thrown e
  end.

Notation "x <~ m ;; k" := (attempt_bind m (fun x => k))
  (at level 61, m at next level, right associativity).

Definition lift {A : Type} (m : res A) : attempt A :=
  match m with
  | Ok a => Returned a
  | Raise e => Thrown (Builtin e)
  end.

(** [container.get(key, default)]. *)
Definition py_get (container : value) (key : string) (default : value)
  : attempt value :=
  match container with
  | VDict entries =>
      Returned match dict_get key entries with
               | Some v => v
               | None => default
               end
  | _ => Thrown AttributeError
  end.

(** Line 140: the comprehension asks [field not in scene_data] for each
    required field in turn. *)
Fixpoint missing_among (scene_data : value) (fields : list string)
  : res (list string) :=
  match fields with
  | [] => Ok []
  | field :: fields' =>
      present <- py_contains (VStr field) scene_data ;;
      rest <- missing_among scene_data fields' ;;
      Ok (if present then rest else field :: rest)
  end.

(** Lines 153-164. *)
Definition document_technical (self : validator) (scene_data : value)
  (errors : list value) : res (list value) :=
  present <- py_contains (VStr "technical") scene_data ;;
  if present then
    tech <- py_getitem scene_data "technical" ;;
    tech_rules <- py_getitem (rules self) "technical" ;;
    errors <- check_allowed tech tech_rules "resolution" "resolution" errors ;;
    errors <- check_allowed tech tech_rules "frameRate" "frame rate" errors ;;
    check_allowed tech tech_rules "colorSpace" "color space" errors
  else Ok errors.

(** Lines 167-170. *)
Definition document_composition (self : validator) (scene_data : value)
  (warnings : list value) : res (list value) :=
  present <- py_contains (VStr "composition") scene_data ;;
  if present then
    composition_rules <- py_getitem (rules self) "composition" ;;
    enforce <- py_getitem composition_rules "enforceRuleOfThirds" ;;
    if py_truthy enforce then
      comp <- py_getitem scene_data "composition" ;;
      present <- py_contains (VStr "ruleOfThirds") comp ;;
      if present then
        flag <- py_getitem comp "ruleOfThirds" ;;
        if py_truthy flag then Ok warnings
        else Ok (warnings ++ [rule_of_thirds_warning])%list
      else Ok warnings
    else Ok warnings
  else Ok warnings.

(** Lines 187-198 for a request already built. *)
Definition analyze_request (self : validator) (request : prompt)
  (errors warnings : list value) : list value * list value :=
  match model self request with
  | CallFails => (errors, warnings ++ [continuity_failure_warning])%list
  | NotJson => (errors, warnings ++ [continuity_failure_warning])%list
  | Parsed continuity_analysis =>
      match extend_from errors continuity_analysis "continuityErrors" with
      | Raise _ => (errors, warnings ++ [continuity_failure_warning])%list
      | Ok errors =>
          match
            extend_from warnings continuity_analysis "continuityWarnings"
          with
          | Raise _ => (errors, warnings ++ [continuity_failure_warning])%list
          | Ok warnings => (errors, warnings)
          end
      end
  end.

(** Lines 173-198. *)
Definition document_continuity (self : validator) (scene_data : value)
  (errors warnings : list value) : attempt (list value * list value) :=
  continuity_rules <~ lift (py_getitem (rules self) "continuity") ;;
  check_props <~ lift (py_getitem continuity_rules "checkProps") ;;
  if py_truthy check_props then
    previous <~ py_get scene_data "previousScenes" (VList []) ;;
    n <~ lift (py_len previous) ;;
    if Nat.ltb 0 n then
      Returned
        (analyze_request self
           {| current_scene := scene_data; previous_scenes := previous |}
           errors warnings)
    else Returned (errors, warnings)
  else Returned (errors, warnings).

Definition validate_scene_document (self : validator) (scene_data : value)
  : attempt ValidationResult :=
  missing <~ lift (missing_among scene_data required_fields) ;;
  match missing with
  | _ :: _ =>
      Returned
        {| valid := false;
           errors :=
             [VStr ("Missing required fields: "
                    ++ String.concat ", " missing)];
           warnings := [] |}
  | [] =>
      errors <~ lift (document_technical self scene_data []) ;;
      warnings <~ lift (document_composition self scene_data []) ;;
      found <~ document_continuity self scene_data errors warnings ;;
      Returned
        {| valid := Nat.eqb (List.length (fst found)) 0;
           errors := fst found;
           warnings := snd found |}
  end.

(** ** [validate_scene_file] and [validate_scene_from_gcs] *)

(** What reading and parsing a scene gives: the text of the exception, or
    the parsed document. *)
Inductive fetched : Type :=
| Unreadable (why : string)
| Document (scene_data : value).

(** A storage client, seen as the download and parse of a blob of a
    bucket. *)
Definition storage : Type := string -> string -> fetched.

(** [str(e)] for what validation raised on a document under given rules;
    the wording is the interpreter's. *)
Definition wording : Type := value -> value -> thrown -> string.

(** The instance as [__init__] leaves it. *)
Record service : Type := {
  api_key : string;
  core : validator;
  storage_client : option storage
}.

(** The result of the three handlers: invalid, one error, no warning. *)
Definition failure_result (message : string) : ValidationResult :=
  {| valid := false; errors := [VStr message]; warnings := [] |}.

(** The body of a [try] that has a document in hand. *)
Definition validate_fetched (describe : wording) (self : service)
  (prefix : string) (scene : fetched) : ValidationResult :=
  match scene with
  | Unreadable why => failure_result (prefix ++ why)
  | Document scene_data =>
      match validate_scene_document (core self) scene_data with
      | Returned result => result
      | Thrown e =>
          failure_result
            (prefix ++ describe (rules (core self)) scene_data e)
      end
  end.

Definition validate_scene_file (describe : wording)
  (read_scene : string -> fetched) (self : service) (file_path : string)
  : ValidationResult :=
  validate_fetched describe self "Could not load scene file: "
    (read_scene file_path).

Definition validate_scene_from_gcs (describe : wording) (self : service)
  (bucket_name blob_name : string) : ValidationResult :=
  match storage_client self with
  | None => failure_result "Google Cloud Storage client not initialized"
  | Some client =>
      validate_fetched describe self "Could not load scene from GCS: "
        (client bucket_name blob_name)
  end.

(** ** [__init__] *)

(** What the constructor finds around it. *)
Record platform : Type := {
  environ_api_key : option string;
  generative_model : string -> prompt -> reply;
  connect_storage : string -> option storage;
  json_load : string -> load_result;
  read_scene : string -> fetched;
  describe : wording
}.

(** Truth of an optional string: [None] and the empty string are false. *)
Definition given (text : option string) : bool :=
  match text with
  | Some t => negb (String.eqb t "")
  | None => false
  end.

(** The string of an optional string that is given. *)
Definition text_of (text : option string) : string :=
  match text with
  | Some t => t
  | None => ""
  end.

(** How the constructor can raise: the [ValueError] of line 58, or
    whatever loading the credentials and opening the client raised. *)
Inductive refusal : Type :=
| MissingApiKey
| CredentialsRejected.

Inductive construction : Type :=
| Refused (why : refusal)
| Constructed (self : service).

Definition init (host : platform)
  (api_key service_account_path rules_path : option string) : construction :=
  match (if given api_key then api_key else environ_api_key host) with
  | None => Refused MissingApiKey
  | Some key =>
      if String.eqb key "" then Refused MissingApiKey
      else
        let client :=
          if given service_account_path then
            match connect_storage host (text_of service_account_path) with
            | Some client => Some (Some client)
            | None => None
            end
          else Some None in
        match client with
        | None => Refused CredentialsRejected
        | Some client =>
            Constructed
              {| api_key := key;
                 core :=
                   {| rules := _load_rules (json_load host) rules_path;
                      model := generative_model host key |};
                 storage_client := client |}
        end
  end.

(** ** [main] *)

Module Cli.

(** The namespace that [parse_args] returns. *)
Record arguments : Type := {
  scene_file : option string;
  gcs_bucket : option string;
  gcs_blob : option string;
  rules_file : option string;
  api_key : option string;
  service_account : option string;
  output : option string
}.

(** How a run ends: the constructor raised, or [main] returned after
    printing, with the files as it left them. *)
Inductive run : Type :=
| Aborted (why : refusal)
| Exited (printed : list string) (fs : filesystem).

Definition usage_error : string :=
  "Error: Either --scene-file or both --gcs-bucket and --gcs-blob are required".

(** Lines 334-335. *)
Definition report_and_print (result : ValidationResult)
  (args : arguments) (fs : filesystem) : run :=
  let report := generate_report result (output args) fs in
  Exited [fst report] (snd report).

Definition main (host : platform) (args : arguments) (fs : filesystem)
  : run :=
  match
    init host (api_key args) (service_account args) (rules_file args)
  with
  | Refused why => Aborted why
  | Constructed validator =>
      if given (scene_file args) then
        report_and_print
          (validate_scene_file (describe host) (read_scene host) validator
             (text_of (scene_file args)))
          args fs
      else if given (gcs_bucket args) && given (gcs_blob args) then
        report_and_print
          (validate_scene_from_gcs (describe host) validator
             (text_of (gcs_bucket args)) (text_of (gcs_blob args)))
          args fs
      else Exited [usage_error] fs
  end.

End Cli.

(** ** Vocabulary of the statements *)

(** A rules file in the shape of the data model: every default section
    it carries is itself a mapping. *)
Definition partial_ruleset (custom : dict) : bool :=
  forallb
    (fun section =>
       match dict_get (fst section) custom with
       | Some (VDict _) => true
       | Some _ => false
       | None => true
       end)
    default_sections.

(** The scene of the worked example, without and with its technical
    block. *)
Definition minimal_scene : dict :=
  [ ("sceneName", VStr "S1");
    ("sceneNumber", VInt 1);
    ("location", VStr "Loft");
    ("timeOfDay", VStr "Day");
    ("characters", VList [VStr "A"]);
    ("props", VList []) ].

Definition example_scene : dict :=
  (minimal_scene
   ++ [("technical", VDict [("resolution", VStr "720x480")])])%list.

Definition with_defaults (m : prompt -> reply) : validator :=
  {| rules := default_rules; model := m |}.

(** A rules file that overrides one technical key and brings a section
    and a key of its own. *)
Definition studio_rules : dict :=
  [ ("technical",
     VDict [ ("frameRate", VList [VInt 24; VInt 48]);
             ("aspectRatio", VStr "2.39:1") ]);
    ("branding", VDict [("logo", VBool true)]) ].

Definition studio_loader (path : string) : load_result :=
  if String.eqb path "rules.json" then Loaded (VDict studio_rules)
  else LoadFails.

Definition empty_loader (path : string) : load_result := Loaded (VDict []).

(** A scene with one required field only, and a technical block no check
    could read. *)
Definition untitled_scene : dict :=
  [("sceneName", VStr "S1"); ("technical", VInt 5)].

(** What one technical field adds to the errors: nothing when the block
    lacks it or its value is among the allowed ones, one message
    otherwise. *)
Definition field_errors (key label : string) (tech : dict)
  (allowed : list value) : list value :=
  match dict_get key tech with
  | None => []
  | Some found =>
      if existsb (fun x => py_same_or_eq x found) allowed then []
      else [invalid_message label found (VList allowed)]
  end.

(** [message] is a string that has [text] in it. *)
Definition mentions (text : string) (message : value) : Prop :=
  exists s, message = VStr s /\ substring_of text s = true.

(** A technical block with two values the default rules do not allow and
    one they do. *)
Definition offbeat_scene : dict :=
  (minimal_scene
   ++ [("technical",
        VDict [ ("resolution", VStr "720x480");
                ("frameRate", VInt 24);
                ("colorSpace", VStr "sRGB") ])])%list.

(** The scene of the example with a composition block that carries
    [flag] as its rule-of-thirds flag. *)
Definition composed_scene (flag : value) : dict :=
  (minimal_scene ++ [("composition", VDict [("ruleOfThirds", flag)])])%list.

(** The scene of the example following a scene of its own kind. *)
Definition sequel_scene : dict :=
  (minimal_scene ++ [("previousScenes", VList [VDict minimal_scene])])%list.

(** A collaborator whose answer parses to an object without fields. *)
Definition blank_model (request : prompt) : reply := Parsed (VDict []).

(** The layout of a report, as the reader sees it. *)
Definition status_line (is_valid : bool) : string :=
  if is_valid then "## ✅ Scene is valid" else "## ❌ Scene is invalid".

Definition report_section (heading : string) (items : list value)
  : list string :=
  match items with
  | [] => []
  | _ :: _ => (heading :: map bullet items ++ [""])%list
  end.

Definition report_layout (r : ValidationResult) : list string :=
  (["# Scene Validation Report"; ""; status_line (valid r); ""]
   ++ report_section "## Errors" (errors r)
   ++ report_section "## Warnings" (warnings r))%list.

Definition passing_with_warning : ValidationResult :=
  {| valid := true; errors := []; warnings := [VStr "w1"] |}.

(** A disk that lets no file be opened, a disk that takes every write,
    and a disk with an old report on which files open but take no
    emoji. *)
Definition locked_disk : filesystem :=
  {| contents := []; refuses := fun _ => true; leaves := fun _ => None |}.

Definition open_disk : filesystem :=
  {| contents := []; refuses := fun _ => false; leaves := fun _ => None |}.

Definition plain_disk : filesystem :=
  {| contents := [("report.md", "# Scene Validation Report of last week")];
     refuses := fun _ => true;
     leaves := fun _ => Some "" |}.

(** A scene whose optional parts have the shape of the data model: the
    technical and composition blocks are mappings, the previous scenes a
    sequence. *)
Definition well_shaped (scene_data : dict) : bool :=
  match dict_get "technical" scene_data with
  | Some (VDict _) => true
  | Some _ => false
  | None => true
  end
  && match dict_get "composition" scene_data with
     | Some (VDict _) => true
     | Some _ => false
     | None => true
     end
  && match dict_get "previousScenes" scene_data with
     | Some (VList _) => true
     | Some _ => false
     | None => true
     end.

(** Two collaborators that disagree on every request. *)
Definition silent_model (request : prompt) : reply := CallFails.

Definition alarmist_model (request : prompt) : reply :=
  Parsed (VDict [("continuityErrors", VList [VStr "prop moved"])]).

(** Values that are no container: [None], booleans and numbers. *)
Definition scalar (v : value) : bool :=
  match v with
  | VNone | VBool _ | VInt _ | VFloat _ => true
  | VStr _ | VList _ | VDict _ => false
  end.

Definition is_dict (v : value) : bool :=
  match v with
  | VDict _ => true
  | _ => false
  end.

(** A rules file whose technical section is [null]. *)
Definition broken_rules : dict :=
  [("technical", VNone); ("branding", VDict [("logo", VBool true)])].

Definition broken_loader (path : string) : load_result :=
  Loaded (VDict broken_rules).

(** Two lookups of a rule section that end alike and, when they return,
    return sections with the same entries under [keys]. *)
Definition consulted_alike (keys : list string) (a b : res value) : Prop :=
  match a, b with
  | Ok x, Ok y => forall k, In k keys -> py_getitem x k = py_getitem y k
  | Raise e, Raise e' => e = e'
  | _, _ => False
  end.

(** The default rules without the entries that no check reads. *)
Definition trimmed_rules : value :=
  VDict
    [ ("technical",
       VDict
         [ ("resolution",
            VList [VStr "1920x1080"; VStr "3840x2160"; VStr "4096x2160"]);
           ("frameRate", VList [VInt 24; VInt 25; VInt 30; VInt 60]);
           ("colorSpace",
            VList [VStr "Rec.709"; VStr "Rec.2020"; VStr "DCI-P3"]) ]);
      ("composition", VDict [("enforceRuleOfThirds", VBool true)]);
      ("continuity", VDict [("checkProps", VBool true)]) ].

(** The result that line 200 builds from the two lists. *)
Definition result_of (found : list value * list value) : ValidationResult :=
  {| valid := Nat.eqb (List.length (fst found)) 0;
     errors := fst found;
     warnings := snd found |}.

(** The scene of the example with [null] for its previous scenes. *)
Definition orphan_scene : dict :=
  (minimal_scene ++ [("previousScenes", VNone)])%list.

(** Collaborators with findings: as two lists; as a list of errors and a
    number for the warnings. *)
Definition thorough_analysis : dict :=
  [ ("continuityErrors", VList [VStr "prop moved"; VStr "coat changed"]);
    ("continuityWarnings", VList [VStr "light is warmer"]) ].

Definition thorough_model (request : prompt) : reply :=
  Parsed (VDict thorough_analysis).

Definition careless_analysis : dict :=
  [ ("continuityErrors", VList [VStr "prop moved"]);
    ("continuityWarnings", VInt 5) ].

Definition careless_model (request : prompt) : reply :=
  Parsed (VDict careless_analysis).

(** A wording of the exceptions by their class alone. *)
Definition plain_wording : wording :=
  fun _ _ e =>
    match e with
    | Builtin TypeError => "TypeError"
    | Builtin KeyError => "KeyError"
    | AttributeError => "AttributeError"
    end.

(** Files of scenes: an object, a number, an array; any other path is not
    there. *)
Definition shelf (path : string) : fetched :=
  if String.eqb path "scene.json" then Document (VDict sequel_scene)
  else if String.eqb path "orphan.json" then Document (VDict orphan_scene)
  else if String.eqb path "number.json" then Document (VInt 42)
  else if String.eqb path "array.json" then
    Document (VList [VInt 1; VStr "props "])
  else Unreadable "[Errno 2] No such file or directory".

Definition bucket_store : storage := fun bucket_name blob_name => shelf blob_name.

Definition local_service : service :=
  {| api_key := "key";
     core := with_defaults thorough_model;
     storage_client := None |}.

Definition cloud_service : service :=
  {| api_key := "key";
     core := with_defaults thorough_model;
     storage_client := Some bucket_store |}.

Definition example_host : platform :=
  {| environ_api_key := Some "env-key";
     generative_model := fun key => thorough_model;
     connect_storage :=
       fun path =>
         if String.eqb path "sa.json" then Some bucket_store else None;
     json_load := studio_loader;
     read_scene := shelf;
     describe := plain_wording |}.

(** A command line that names both a scene file and a blob. *)
Definition local_run : Cli.arguments :=
  {| Cli.scene_file := Some "scene.json";
     Cli.gcs_bucket := Some "dailies";
     Cli.gcs_blob := Some "number.json";
     Cli.rules_file := None;
     Cli.api_key := None;
     Cli.service_account := None;
     Cli.output := Some "report.md" |}.

(** A command line that names a bucket and no blob. *)
Definition sourceless_run : Cli.arguments :=
  {| Cli.scene_file := None;
     Cli.gcs_bucket := Some "dailies";
     Cli.gcs_blob := None;
     Cli.rules_file := None;
     Cli.api_key := Some "key";
     Cli.service_account := None;
     Cli.output := Some "report.md" |}.

(** The same command line without its two GCS arguments. *)
Definition without_gcs (args : Cli.arguments) : Cli.arguments :=
  {| Cli.scene_file := Cli.scene_file args;
     Cli.gcs_bucket := None;
     Cli.gcs_blob := None;
     Cli.rules_file := Cli.rules_file args;
     Cli.api_key := Cli.api_key args;
     Cli.service_account := Cli.service_account args;
     Cli.output := Cli.output args |}.

(** Whether a command line names a source that [main] accepts. *)
Definition names_a_source (args : Cli.arguments) : bool :=
  given (Cli.scene_file args)
  || (given (Cli.gcs_bucket args) && given (Cli.gcs_blob args)).

(** The same surroundings without a key in the environment. *)
Definition keyless_host : platform :=
  {| environ_api_key := Some "";
     generative_model := fun key => thorough_model;
     connect_storage := fun path => None;
     json_load := studio_loader;
     read_scene := shelf;
     describe := plain_wording |}.

(** A scene with previous scenes and a resolution that is not allowed. *)
Definition flawed_sequel : dict :=
  (sequel_scene
   ++ [("technical", VDict [("resolution", VStr "720x480")])])%list.

(** ** Facts about dicts *)

Lemma dict_get_set_eq (A : Type) (k : string) (v : A) (d : list (string * A)) :
  dict_get k (dict_set k v d) = Some v.
Proof.
  induction d as [|[k' v'] d IH]; simpl.
  - now rewrite String.eqb_refl.
  - destruct (String.eqb k k') eqn:E; simpl.
    + now rewrite String.eqb_refl.
    + now rewrite E.
Qed.

Lemma dict_get_set_ne (A : Type) (k k' : string) (v : A)
  (d : list (string * A)) :
  k <> k' -> dict_get k' (dict_set k v d) = dict_get k' d.
Proof.
  intros Hne. induction d as [|[k0 v0] d IH]; simpl.
  - destruct (String.eqb_spec k' k); [congruence | reflexivity].
  - destruct (String.eqb_spec k k0) as [->|Hk]; simpl.
    + destruct (String.eqb_spec k' k0); [congruence | reflexivity].
    + destruct (String.eqb_spec k' k0); [reflexivity | exact IH].
Qed.

Lemma dict_get_In (A : Type) (k : string) (v : A) (d : list (string * A)) :
  dict_get k d = Some v -> In (k, v) d.
Proof.
  induction d as [|[k' v'] d IH]; simpl; [discriminate|].
  destruct (String.eqb_spec k k') as [->|Hk]; intros H.
  - left. congruence.
  - right. auto.
Qed.

Lemma dict_get_notin (A : Type) (k : string) (d : list (string * A)) :
  ~ In k (map fst d) -> dict_get k d = None.
Proof.
  induction d as [|[k' v'] d IH]; simpl; [reflexivity|].
  intros H. destruct (String.eqb_spec k k') as [->|Hk].
  - exfalso. apply H. now left.
  - apply IH. intros Hin. apply H. now right.
Qed.

Lemma dict_has_get (A : Type) (k : string) (d : list (string * A)) :
  dict_has k d = true <-> exists v, dict_get k d = Some v.
Proof.
  unfold dict_has. destruct (dict_get k d) as [v|].
  - split; [eauto | reflexivity].
  - split; [discriminate | intros [v Hv]; discriminate].
Qed.

(** ** The merge of [_load_rules] *)

(** The inner loop leaves every other section alone and completes the
    section it works on: a key the section has keeps its value, a key it
    lacks takes the default. *)
Lemma fill_missing_keys_lookup (section : string) (defaults : dict) :
  forall (custom section_entries : dict),
    dict_get section custom = Some (VDict section_entries) ->
    exists custom' filled,
      fill_missing_keys section defaults (VDict custom) = Ok (VDict custom')
      /\ dict_get section custom' = Some (VDict filled)
      /\ (forall s, s <> section -> dict_get s custom' = dict_get s custom)
      /\ (forall k,
             dict_get k filled =
             match dict_get k section_entries with
             | Some v => Some v
             | None => dict_get k defaults
             end).
Proof.
  induction defaults as [|[key default] defaults IH];
    intros custom section_entries Hsec.
  - exists custom, section_entries. simpl. repeat split; auto.
    intros k. now destruct (dict_get k section_entries).
  - simpl. rewrite Hsec. simpl. unfold dict_has.
    destruct (dict_get key section_entries) as [v|] eqn:Hkey; simpl.
    + destruct (IH custom section_entries Hsec)
        as (custom' & filled & Hrun & Hget & Hother & Hkeys).
      exists custom', filled. repeat split; auto.
      intros k. rewrite Hkeys.
      destruct (String.eqb_spec k key) as [->|Hk].
      * now rewrite Hkey.
      * reflexivity.
    + assert (Hsec' :
        dict_get section
          (dict_set section (VDict (dict_set key default section_entries))
             custom)
        = Some (VDict (dict_set key default section_entries)))
        by apply dict_get_set_eq.
      destruct (IH _ _ Hsec')
        as (custom' & filled & Hrun & Hget & Hother & Hkeys).
      exists custom', filled. repeat split; auto.
      * intros s Hs. rewrite Hother by assumption.
        apply dict_get_set_ne. congruence.
      * intros k. rewrite Hkeys.
        destruct (String.eqb_spec k key) as [->|Hk].
        -- now rewrite dict_get_set_eq, Hkey.
        -- rewrite dict_get_set_ne by congruence. reflexivity.
Qed.

(** The outer loop, for defaults that name each section once and a custom
    dict whose default sections are dicts. *)
Lemma merge_defaults_lookup (defaults : dict) :
  NoDup (map fst defaults) ->
  (forall s v, In (s, v) defaults -> exists keys, v = VDict keys) ->
  forall custom : dict,
    (forall s v w,
        In (s, v) defaults -> dict_get s custom = Some w ->
        exists entries, w = VDict entries) ->
    exists merged,
      merge_defaults defaults (VDict custom) = Ok (VDict merged)
      /\ (forall s, dict_get s defaults = None ->
                    dict_get s merged = dict_get s custom)
      /\ (forall s keys,
             dict_get s defaults = Some (VDict keys) ->
             dict_get s custom = None ->
             dict_get s merged = Some (VDict keys))
      /\ (forall s keys entries,
             dict_get s defaults = Some (VDict keys) ->
             dict_get s custom = Some (VDict entries) ->
             exists filled,
               dict_get s merged = Some (VDict filled)
               /\ forall k,
                   dict_get k filled =
                   match dict_get k entries with
                   | Some v => Some v
                   | None => dict_get k keys
                   end).
Proof.
  induction defaults as [|[section default] defaults IH];
    intros Hnodup Hdicts custom Hshape.
  - exists custom. simpl. repeat split; auto; discriminate.
  - simpl in Hnodup. inversion Hnodup as [|? ? Hfresh Hnodup']; subst.
    destruct (Hdicts section default (or_introl eq_refl)) as [keys ->].
    assert (Hdicts' :
      forall s v, In (s, v) defaults -> exists keys, v = VDict keys)
      by (intros s v Hin; apply (Hdicts s v); now right).
    simpl. unfold dict_has.
    destruct (dict_get section custom) as [w|] eqn:Hsec; simpl.
    + destruct (Hshape section (VDict keys) w (or_introl eq_refl) Hsec)
        as [entries ->].
      destruct (fill_missing_keys_lookup section keys custom entries Hsec)
        as (custom1 & filled & Hrun & Hget & Hother & Hkeys).
      rewrite Hrun. simpl.
      destruct (IH Hnodup' Hdicts' custom1) as (merged & Hm & Hn & Ha & Hp).
      { intros s v w Hin Hw.
        assert (s <> section).
        { intros ->. apply Hfresh.
          change section with (fst (section, v)). now apply in_map. }
        rewrite Hother in Hw by assumption.
        apply (Hshape s v w); [now right | assumption]. }
      exists merged. split; [exact Hm|]. repeat split.
      * intros s. destruct (String.eqb_spec s section) as [->|Hs];
          [discriminate|]. intros Hd. rewrite Hn by assumption. now apply Hother.
      * intros s keys0. destruct (String.eqb_spec s section) as [->|Hs].
        -- intros _ Habs. congruence.
        -- intros Hd Hc. apply Ha; [assumption|]. now rewrite Hother.
      * intros s keys0 entries0.
        destruct (String.eqb_spec s section) as [->|Hs].
        -- intros Hd Hc. inversion Hd; subst keys0.
           rewrite Hsec in Hc. inversion Hc; subst entries0.
           exists filled. split; [|exact Hkeys].
           rewrite Hn by (now apply dict_get_notin). exact Hget.
        -- intros Hd Hc. apply Hp; [assumption|]. now rewrite Hother.
    + destruct (IH Hnodup' Hdicts' (dict_set section (VDict keys) custom))
        as (merged & Hm & Hn & Ha & Hp).
      { intros s v w Hin Hw.
        assert (s <> section).
        { intros ->. apply Hfresh.
          change section with (fst (section, v)). now apply in_map. }
        rewrite dict_get_set_ne in Hw by congruence.
        apply (Hshape s v w); [now right | assumption]. }
      exists merged. split; [exact Hm|]. repeat split.
      * intros s. destruct (String.eqb_spec s section) as [->|Hs];
          [discriminate|]. intros Hd. rewrite Hn by assumption.
        apply dict_get_set_ne. congruence.
      * intros s keys0. destruct (String.eqb_spec s section) as [->|Hs].
        -- intros Hd _. inversion Hd; subst keys0.
           rewrite Hn by (now apply dict_get_notin). apply dict_get_set_eq.
        -- intros Hd Hc. apply Ha; [assumption|].
           rewrite dict_get_set_ne by congruence. assumption.
      * intros s keys0 entries0.
        destruct (String.eqb_spec s section) as [->|Hs].
        -- intros _ Hc. congruence.
        -- intros Hd Hc. apply Hp; [assumption|].
           rewrite dict_get_set_ne by congruence. assumption.
Qed.

Lemma default_sections_nodup : NoDup (map fst default_sections).
Proof.
  simpl. repeat constructor; simpl; intuition discriminate.
Qed.

Lemma default_sections_are_dicts (s : string) (v : value) :
  In (s, v) default_sections -> exists keys, v = VDict keys.
Proof.
  simpl. intros H.
  repeat (destruct H as [H|H]; [inversion H; subst; eauto|]).
  contradiction.
Qed.

Lemma partial_ruleset_shape (custom : dict) :
  partial_ruleset custom = true ->
  forall s v w,
    In (s, v) default_sections -> dict_get s custom = Some w ->
    exists entries, w = VDict entries.
Proof.
  unfold partial_ruleset. rewrite forallb_forall.
  intros Hall s v w Hin Hget. specialize (Hall _ Hin). simpl in Hall.
  rewrite Hget in Hall. destruct w; try discriminate. eauto.
Qed.

(** C2.  For a rules file [custom] in the shape of the data model,
    [_load_rules] returns a dict that has every default section; a section
    that both have carries every default key, with the value of the file
    for each key the file gives (also keys the defaults do not know) and
    the default for the others; a default section the file lacks is
    copied; a section of the file that is no default section is kept as it
    is. *)
Theorem load_rules_merges_over_defaults
  (json_load : string -> load_result) (path : string) (custom : dict) :
  path <> "" ->
  json_load path = Loaded (VDict custom) ->
  partial_ruleset custom = true ->
  exists merged,
    _load_rules json_load (Some path) = VDict merged
    /\ (forall s default,
           dict_get s default_sections = Some default ->
           dict_has s merged = true)
    /\ (forall s keys entries,
           dict_get s default_sections = Some (VDict keys) ->
           dict_get s custom = Some (VDict entries) ->
           exists filled,
             dict_get s merged = Some (VDict filled)
             /\ (forall k, dict_has k keys = true -> dict_has k filled = true)
             /\ (forall k v,
                    dict_get k entries = Some v -> dict_get k filled = Some v)
             /\ (forall k,
                    dict_get k entries = None ->
                    dict_get k filled = dict_get k keys))
    /\ (forall s default,
           dict_get s default_sections = Some default ->
           dict_get s custom = None ->
           dict_get s merged = Some default)
    /\ (forall s,
           dict_get s default_sections = None ->
           dict_get s merged = dict_get s custom).
Proof.
  intros Hpath Hload Hshape.
  destruct (merge_defaults_lookup default_sections default_sections_nodup
              default_sections_are_dicts custom
              (partial_ruleset_shape custom Hshape))
    as (merged & Hrun & Hother & Habsent & Hboth).
  exists merged. split.
  { unfold _load_rules. destruct (String.eqb_spec path ""); [contradiction|].
    now rewrite Hload, Hrun. }
  assert (Hfilled : forall s keys entries,
    dict_get s default_sections = Some (VDict keys) ->
    dict_get s custom = Some (VDict entries) ->
    exists filled,
      dict_get s merged = Some (VDict filled)
      /\ (forall k, dict_has k keys = true -> dict_has k filled = true)
      /\ (forall k v, dict_get k entries = Some v -> dict_get k filled = Some v)
      /\ (forall k, dict_get k entries = None ->
                    dict_get k filled = dict_get k keys)).
  { intros s keys entries Hd Hc.
    destruct (Hboth s keys entries Hd Hc) as (filled & Hget & Hkeys).
    exists filled. split; [exact Hget|]. repeat split.
    - intros k Hk. apply dict_has_get in Hk. destruct Hk as [v Hv].
      apply dict_has_get. rewrite Hkeys.
      destruct (dict_get k entries); eauto.
    - intros k v Hv. now rewrite Hkeys, Hv.
    - intros k Hk. now rewrite Hkeys, Hk. }
  assert (Hcopied : forall s default,
    dict_get s default_sections = Some default ->
    dict_get s custom = None -> dict_get s merged = Some default).
  { intros s default Hd Hc.
    destruct (default_sections_are_dicts s default (dict_get_In _ _ _ _ Hd))
      as [keys ->].
    now apply Habsent. }
  repeat split; auto.
  intros s default Hd.
  destruct (default_sections_are_dicts s default (dict_get_In _ _ _ _ Hd))
    as [keys ->].
  apply dict_has_get.
  destruct (dict_get s custom) as [w|] eqn:Hc.
  - destruct (partial_ruleset_shape custom Hshape s (VDict keys) w
                (dict_get_In _ _ _ _ Hd) Hc) as [entries ->].
    destruct (Hfilled s keys entries Hd Hc) as (filled & Hget & _). eauto.
  - rewrite (Hcopied s (VDict keys) Hd Hc). eauto.
Qed.

Lemma load_rules_merges_over_defaults_witness :
  exists merged,
    _load_rules studio_loader (Some "rules.json") = VDict merged
    /\ (forall s default,
           dict_get s default_sections = Some default ->
           dict_has s merged = true)
    /\ (forall s keys entries,
           dict_get s default_sections = Some (VDict keys) ->
           dict_get s studio_rules = Some (VDict entries) ->
           exists filled,
             dict_get s merged = Some (VDict filled)
             /\ (forall k, dict_has k keys = true -> dict_has k filled = true)
             /\ (forall k v,
                    dict_get k entries = Some v -> dict_get k filled = Some v)
             /\ (forall k,
                    dict_get k entries = None ->
                    dict_get k filled = dict_get k keys))
    /\ (forall s default,
           dict_get s default_sections = Some default ->
           dict_get s studio_rules = None ->
           dict_get s merged = Some default)
    /\ (forall s,
           dict_get s default_sections = None ->
           dict_get s merged = dict_get s studio_rules).
Proof.
  apply (load_rules_merges_over_defaults studio_loader "rules.json"
           studio_rules).
  - discriminate.
  - reflexivity.
  - reflexivity.
Defined.

(** C8.  With no rules path (or an empty one), and with a rules file that
    parses to the empty record, [_load_rules] returns the default rules. *)
Theorem load_rules_identity (json_load : string -> load_result) :
  _load_rules json_load None = default_rules
  /\ _load_rules json_load (Some "") = default_rules
  /\ forall path,
      json_load path = Loaded (VDict []) ->
      _load_rules json_load (Some path) = default_rules.
Proof.
  repeat split.
  intros path Hload. unfold _load_rules.
  destruct (String.eqb path ""); [reflexivity|].
  rewrite Hload. reflexivity.
Qed.

Lemma load_rules_identity_witness :
  _load_rules empty_loader (Some "rules.json") = default_rules.
Proof.
  apply (proj2 (proj2 (load_rules_identity empty_loader))).
  reflexivity.
Defined.

(** ** The result of [validate_scene_json] *)

Lemma valid_reads_errors (self : validator) (scene_data : dict)
  (r : ValidationResult) :
  validate_scene_json self scene_data = Ok r ->
  valid r = match errors r with [] => true | _ :: _ => false end.
Proof.
  unfold validate_scene_json.
  destruct (missing_fields scene_data).
  - destruct (validate_technical self scene_data []) as [errs|]; simpl;
      [|discriminate].
    destruct (validate_composition self scene_data []) as [warns|]; simpl;
      [|discriminate].
    destruct (validate_continuity self scene_data errs warns) as [found|];
      simpl; [|discriminate].
    intros H. inversion H; subst; simpl. now destruct (fst found).
  - intros H. inversion H; subst. reflexivity.
Qed.

(** C1.  In every result that [validate_scene_json] returns, [valid] holds
    exactly when [errors] is empty; two results with the same errors agree
    on [valid], whatever their warnings are. *)
Theorem valid_iff_no_errors (self : validator) (scene_data : dict)
  (r : ValidationResult) :
  validate_scene_json self scene_data = Ok r ->
  (valid r = true <-> errors r = [])
  /\ (forall self' scene_data' r',
         validate_scene_json self' scene_data' = Ok r' ->
         errors r' = errors r -> valid r' = valid r).
Proof.
  intros Hr. pose proof (valid_reads_errors _ _ _ Hr) as Hv. split.
  - rewrite Hv. destruct (errors r); split; congruence.
  - intros self' scene_data' r' Hr' He.
    rewrite Hv, (valid_reads_errors _ _ _ Hr'), He. reflexivity.
Qed.

Lemma valid_iff_no_errors_witness :
  let r :=
    {| valid := false;
       errors :=
         [invalid_message "resolution" (VStr "720x480")
            (VList [VStr "1920x1080"; VStr "3840x2160"; VStr "4096x2160"])];
       warnings := [] |} in
  (valid r = true <-> errors r = [])
  /\ (forall self' scene_data' r',
         validate_scene_json self' scene_data' = Ok r' ->
         errors r' = errors r -> valid r' = valid r).
Proof.
  apply (valid_iff_no_errors (with_defaults silent_model) example_scene).
  reflexivity.
Defined.

Lemma missing_fields_In (scene_data : dict) (field : string) :
  In field (missing_fields scene_data)
  <-> In field required_fields /\ dict_get field scene_data = None.
Proof.
  unfold missing_fields. rewrite filter_In. unfold dict_has.
  destruct (dict_get field scene_data); simpl; intuition discriminate.
Qed.

(** C3.  A scene that lacks a required field is answered at once, whatever
    the rules, the collaborator and the rest of the scene are: invalid,
    one error that lists the missing fields joined by commas, no warning. *)
Theorem missing_required_field_short_circuits
  (self : validator) (scene_data : dict) :
  (exists field,
      In field required_fields /\ dict_get field scene_data = None) ->
  validate_scene_json self scene_data =
    Ok {| valid := false;
          errors :=
            [VStr ("Missing required fields: "
                   ++ String.concat ", " (missing_fields scene_data))];
          warnings := [] |}
  /\ (forall field,
         In field (missing_fields scene_data)
         <-> In field required_fields /\ dict_get field scene_data = None).
Proof.
  intros (field & Hreq & Hmiss). split; [|apply missing_fields_In].
  assert (Hin : In field (missing_fields scene_data))
    by (apply missing_fields_In; auto).
  unfold validate_scene_json.
  destruct (missing_fields scene_data); [contradiction | reflexivity].
Qed.

Lemma missing_required_field_short_circuits_witness :
  validate_scene_json (with_defaults alarmist_model) untitled_scene =
    Ok {| valid := false;
          errors :=
            [VStr ("Missing required fields: "
                   ++ String.concat ", " (missing_fields untitled_scene))];
          warnings := [] |}
  /\ (forall field,
         In field (missing_fields untitled_scene)
         <-> In field required_fields /\ dict_get field untitled_scene = None).
Proof.
  apply (missing_required_field_short_circuits
           (with_defaults alarmist_model) untitled_scene).
  exists "props". split; [simpl; tauto | reflexivity].
Defined.

(** ** The continuity check *)

(** C6.  When the scene has no previous scenes (the key is absent or holds
    an empty list), or [checkProps] is false in the rules, the call
    returns the same thing, value or exception, for any two collaborators:
    the collaborator is not consulted. *)
Theorem continuity_skipped_without_call
  (effective_rules : value) (m1 m2 : prompt -> reply) (scene_data : dict) :
  dict_get "previousScenes" scene_data = None
  \/ dict_get "previousScenes" scene_data = Some (VList [])
  \/ (exists continuity_rules check_props,
         py_getitem effective_rules "continuity" = Ok continuity_rules
         /\ py_getitem continuity_rules "checkProps" = Ok check_props
         /\ py_truthy check_props = false) ->
  validate_scene_json {| rules := effective_rules; model := m1 |} scene_data
  = validate_scene_json {| rules := effective_rules; model := m2 |} scene_data.
Proof.
  intros Hskip. unfold validate_scene_json.
  destruct (missing_fields scene_data); [|reflexivity].
  change (validate_technical {| rules := effective_rules; model := m2 |})
    with (validate_technical {| rules := effective_rules; model := m1 |}).
  destruct (validate_technical _ scene_data []) as [errs|]; simpl;
    [|reflexivity].
  change (validate_composition {| rules := effective_rules; model := m2 |})
    with (validate_composition {| rules := effective_rules; model := m1 |}).
  destruct (validate_composition _ scene_data []) as [warns|]; simpl;
    [|reflexivity].
  assert (Hsame :
    validate_continuity {| rules := effective_rules; model := m1 |}
      scene_data errs warns
    = validate_continuity {| rules := effective_rules; model := m2 |}
        scene_data errs warns).
  { unfold validate_continuity; simpl.
    destruct (py_getitem effective_rules "continuity") as [cr|] eqn:Er;
      simpl; [|reflexivity].
    destruct (py_getitem cr "checkProps") as [cp|] eqn:Ep; simpl;
      [|reflexivity].
    destruct (py_truthy cp) eqn:Hcp; [|reflexivity].
    destruct Hskip as [Hnone | [Hempty | (cr' & cp' & Hcr & Hcp' & Hfalse)]].
    - unfold previous_of. rewrite Hnone. reflexivity.
    - unfold previous_of. rewrite Hempty. reflexivity.
    - congruence. }
  now rewrite Hsame.
Qed.

Lemma continuity_skipped_without_call_witness :
  validate_scene_json
    {| rules := default_rules; model := silent_model |} example_scene
  = validate_scene_json
      {| rules := default_rules; model := alarmist_model |} example_scene.
Proof.
  apply (continuity_skipped_without_call default_rules silent_model
           alarmist_model example_scene).
  left. reflexivity.
Defined.

(** ** Substrings *)

Lemma substring_of_unfold (t s : string) :
  substring_of t s =
  (String.prefix t s
   || match s with
      | EmptyString => false
      | String _ s' => substring_of t s'
      end)%bool.
Proof. destruct s; reflexivity. Qed.

Lemma prefix_append (t b : string) : String.prefix t (t ++ b) = true.
Proof.
  induction t as [|c t IH]; simpl.
  - now destruct b.
  - destruct (ascii_dec c c); [exact IH | congruence].
Qed.

Lemma substring_of_here (t b : string) : substring_of t (t ++ b) = true.
Proof. rewrite substring_of_unfold, prefix_append. reflexivity. Qed.

Lemma substring_of_later (t a s : string) :
  substring_of t s = true -> substring_of t (a ++ s) = true.
Proof.
  intros H. induction a as [|c a IH]; simpl; [exact H|].
  rewrite IH. apply orb_true_r.
Qed.

Lemma substring_of_end (t : string) : substring_of t t = true.
Proof.
  rewrite substring_of_unfold.
  replace (String.prefix t t) with true; [reflexivity|].
  symmetry. induction t as [|c t IH]; simpl; [reflexivity|].
  destruct (ascii_dec c c); [exact IH | congruence].
Qed.

(** ** The technical check *)

Lemma check_allowed_dicts (tech tech_rules : dict) (key label : string)
  (allowed errors : list value) :
  dict_get key tech_rules = Some (VList allowed) ->
  check_allowed (VDict tech) (VDict tech_rules) key label errors
  = Ok (errors ++ field_errors key label tech allowed)%list.
Proof.
  intros Hallowed. unfold check_allowed, field_errors; simpl.
  unfold dict_has.
  destruct (dict_get key tech) as [found|]; simpl.
  - rewrite Hallowed; simpl.
    destruct (existsb (fun x => py_same_or_eq x found) allowed); simpl;
      [now rewrite app_nil_r | reflexivity].
  - now rewrite app_nil_r.
Qed.

Lemma extend_from_appends (findings : list value) (analysis : value)
  (key : string) :
  extend_from findings analysis key =
  match extend_from [] analysis key with
  | Ok items => Ok (findings ++ items)%list
  | Raise e => Raise e
  end.
Proof.
  unfold extend_from.
  destruct (py_contains (VStr key) analysis) as [[|]|]; simpl;
    try reflexivity; [|now rewrite app_nil_r].
  destruct (py_getitem analysis key) as [found|]; simpl; [|reflexivity].
  destruct (py_truthy found); [|now rewrite app_nil_r].
  destruct (py_iter found); reflexivity.
Qed.

(** The continuity check only ever appends to what it is given. *)
Lemma validate_continuity_appends (self : validator) (scene_data : dict)
  (errors warnings : list value) :
  validate_continuity self scene_data errors warnings =
  match validate_continuity self scene_data [] [] with
  | Ok found => Ok ((errors ++ fst found)%list, (warnings ++ snd found)%list)
  | Raise e => Raise e
  end.
Proof.
  unfold validate_continuity.
  destruct (py_getitem (rules self) "continuity") as [cr|]; simpl;
    [|reflexivity].
  destruct (py_getitem cr "checkProps") as [cp|]; simpl; [|reflexivity].
  destruct (py_truthy cp); [|now rewrite !app_nil_r].
  destruct (py_len (previous_of scene_data)) as [n|]; simpl; [|reflexivity].
  destruct (Nat.ltb 0 n); [|now rewrite !app_nil_r].
  unfold analyze_continuity.
  destruct (model self _) as [| |analysis]; simpl;
    try now rewrite app_nil_r.
  rewrite (extend_from_appends errors).
  destruct (extend_from [] analysis "continuityErrors") as [errs|]; simpl;
    [|now rewrite app_nil_r].
  rewrite (extend_from_appends warnings).
  destruct (extend_from [] analysis "continuityWarnings"); simpl;
    reflexivity.
Qed.

(** C4.  With a technical block and a technical rule section that are
    mappings, and allowed values given as lists, the technical check yields
    exactly the messages of the three fields, in order, and they head the
    errors of every result; a field the block lacks, or whose value is
    allowed, yields nothing, and a field whose value is not allowed yields
    one message naming the field, the value and the allowed list.  The
    worked example gets its one error and no warning. *)
Theorem technical_check_reports_disallowed_values :
  (forall (self : validator) (scene_data tech tech_rules : dict)
          (resolutions frame_rates color_spaces : list value),
      missing_fields scene_data = [] ->
      dict_get "technical" scene_data = Some (VDict tech) ->
      py_getitem (rules self) "technical" = Ok (VDict tech_rules) ->
      dict_get "resolution" tech_rules = Some (VList resolutions) ->
      dict_get "frameRate" tech_rules = Some (VList frame_rates) ->
      dict_get "colorSpace" tech_rules = Some (VList color_spaces) ->
      let found :=
        (field_errors "resolution" "resolution" tech resolutions
         ++ field_errors "frameRate" "frame rate" tech frame_rates
         ++ field_errors "colorSpace" "color space" tech color_spaces)%list in
      validate_technical self scene_data [] = Ok found
      /\ forall r,
          validate_scene_json self scene_data = Ok r ->
          exists rest, errors r = (found ++ rest)%list)
  /\ (forall (key label : string) (tech : dict) (allowed : list value),
         (dict_get key tech = None -> field_errors key label tech allowed = [])
         /\ (forall found,
                dict_get key tech = Some found ->
                existsb (fun x => py_same_or_eq x found) allowed = true ->
                field_errors key label tech allowed = [])
         /\ (forall found,
                dict_get key tech = Some found ->
                existsb (fun x => py_same_or_eq x found) allowed = false ->
                exists message,
                  field_errors key label tech allowed = [message]
                  /\ mentions label message
                  /\ mentions (py_str found) message
                  /\ mentions (py_str (VList allowed)) message))
  /\ (forall m : prompt -> reply,
         validate_scene_json (with_defaults m) example_scene =
           Ok {| valid := false;
                 errors :=
                   [VStr ("Invalid resolution: 720x480. Must be one of "
                          ++ "['1920x1080', '3840x2160', '4096x2160']")];
                 warnings := [] |}).
Proof.
  split; [|split].
  - intros self scene_data tech tech_rules resolutions frame_rates
      color_spaces Hreq Htech Hrules Hres Hfr Hcs found.
    assert (Hrun : validate_technical self scene_data [] = Ok found).
    { unfold validate_technical. rewrite Htech, Hrules. simpl.
      rewrite (check_allowed_dicts _ _ _ _ _ _ Hres). simpl.
      rewrite (check_allowed_dicts _ _ _ _ _ _ Hfr). simpl.
      rewrite (check_allowed_dicts _ _ _ _ _ _ Hcs).
      unfold found. now rewrite app_assoc. }
    split; [exact Hrun|].
    intros r. unfold validate_scene_json. rewrite Hreq, Hrun. simpl.
    destruct (validate_composition self scene_data []) as [warns|]; simpl;
      [|discriminate].
    rewrite validate_continuity_appends.
    destruct (validate_continuity self scene_data [] []) as [more|]; simpl;
      [|discriminate].
    intros H. inversion H; subst; simpl. eauto.
  - intros key label tech allowed. unfold field_errors. repeat split.
    + now intros ->.
    + intros found -> ->. reflexivity.
    + intros found -> ->. eexists. split; [reflexivity|].
      unfold mentions, invalid_message. repeat split.
      * eexists. split; [reflexivity|].
        apply (substring_of_later _ "Invalid "), substring_of_here.
      * eexists. split; [reflexivity|].
        apply (substring_of_later _ "Invalid "), substring_of_later,
          (substring_of_later _ ": "), substring_of_here.
      * eexists. split; [reflexivity|].
        apply (substring_of_later _ "Invalid "), substring_of_later,
          (substring_of_later _ ": "), substring_of_later,
          (substring_of_later _ ". Must be one of "), substring_of_end.
  - intros m. reflexivity.
Qed.

Lemma technical_check_reports_disallowed_values_witness :
  let found :=
    [ invalid_message "resolution" (VStr "720x480")
        (VList [VStr "1920x1080"; VStr "3840x2160"; VStr "4096x2160"]);
      invalid_message "color space" (VStr "sRGB")
        (VList [VStr "Rec.709"; VStr "Rec.2020"; VStr "DCI-P3"]) ] in
  validate_technical (with_defaults alarmist_model) offbeat_scene []
  = Ok found
  /\ forall r,
      validate_scene_json (with_defaults alarmist_model) offbeat_scene = Ok r ->
      exists rest, errors r = (found ++ rest)%list.
Proof.
  apply (proj1 technical_check_reports_disallowed_values
           (with_defaults alarmist_model) offbeat_scene
           [ ("resolution", VStr "720x480");
             ("frameRate", VInt 24);
             ("colorSpace", VStr "sRGB") ]
           [ ("resolution",
              VList [VStr "1920x1080"; VStr "3840x2160"; VStr "4096x2160"]);
             ("frameRate", VList [VInt 24; VInt 25; VInt 30; VInt 60]);
             ("colorSpace", VList [VStr "Rec.709"; VStr "Rec.2020"; VStr "DCI-P3"]);
             ("audioChannels", VList [VInt 2; VFloat 5.1; VFloat 7.1]);
             ("audioSampleRate", VList [VInt 48000; VInt 96000]) ]
           [VStr "1920x1080"; VStr "3840x2160"; VStr "4096x2160"]
           [VInt 24; VInt 25; VInt 30; VInt 60]
           [VStr "Rec.709"; VStr "Rec.2020"; VStr "DCI-P3"]);
    reflexivity.
Defined.

(** ** The composition check *)

Lemma validate_composition_skips (self : validator) (scene_data : dict)
  (warnings : list value) :
  dict_get "composition" scene_data = None
  \/ (exists composition_rules enforce,
         py_getitem (rules self) "composition" = Ok composition_rules
         /\ py_getitem composition_rules "enforceRuleOfThirds" = Ok enforce
         /\ py_truthy enforce = false) ->
  validate_composition self scene_data warnings = Ok warnings.
Proof.
  unfold validate_composition.
  intros [Hnone | (cr & enforce & Hcr & Henf & Hoff)].
  - now rewrite Hnone.
  - destruct (dict_get "composition" scene_data); [|reflexivity].
    rewrite Hcr; simpl. rewrite Henf; simpl. now rewrite Hoff.
Qed.

Lemma validate_composition_flag (self : validator) (scene_data comp : dict)
  (composition_rules enforce flag : value) (warnings : list value) :
  dict_get "composition" scene_data = Some (VDict comp) ->
  py_getitem (rules self) "composition" = Ok composition_rules ->
  py_getitem composition_rules "enforceRuleOfThirds" = Ok enforce ->
  py_truthy enforce = true ->
  dict_get "ruleOfThirds" comp = Some flag ->
  validate_composition self scene_data warnings =
  Ok (if py_truthy flag then warnings
      else (warnings ++ [rule_of_thirds_warning])%list).
Proof.
  intros Hcomp Hcr Henf Hon Hflag. unfold validate_composition.
  rewrite Hcomp, Hcr; simpl. rewrite Henf; simpl. rewrite Hon; simpl.
  unfold dict_has. rewrite Hflag; simpl. now destruct (py_truthy flag).
Qed.

(** Where the warning ends up: at the head of the warnings, with errors
    that the technical and the continuity checks account for alone. *)
Lemma falsy_flag_in_result (self : validator) (scene_data comp : dict)
  (composition_rules enforce flag : value) :
  missing_fields scene_data = [] ->
  dict_get "composition" scene_data = Some (VDict comp) ->
  py_getitem (rules self) "composition" = Ok composition_rules ->
  py_getitem composition_rules "enforceRuleOfThirds" = Ok enforce ->
  py_truthy enforce = true ->
  dict_get "ruleOfThirds" comp = Some flag ->
  py_truthy flag = false ->
  validate_composition self scene_data [] = Ok [rule_of_thirds_warning]
  /\ forall r,
      validate_scene_json self scene_data = Ok r ->
      exists technical found,
        validate_technical self scene_data [] = Ok technical
        /\ validate_continuity self scene_data [] [] = Ok found
        /\ errors r = (technical ++ fst found)%list
        /\ warnings r = rule_of_thirds_warning :: snd found
        /\ (valid r = true <-> (technical ++ fst found)%list = []).
Proof.
  intros Hreq Hcomp Hcr Henf Hon Hflag Hfalsy.
  assert (Hrun :
    validate_composition self scene_data [] = Ok [rule_of_thirds_warning]).
  { rewrite (validate_composition_flag _ _ _ _ _ _ _ Hcomp Hcr Henf Hon Hflag).
    now rewrite Hfalsy. }
  split; [exact Hrun|].
  intros r Hr. pose proof (valid_reads_errors _ _ _ Hr) as Hvalid.
  revert Hr. unfold validate_scene_json. rewrite Hreq.
  destruct (validate_technical self scene_data []) as [technical|]; simpl;
    [|discriminate].
  rewrite Hrun; simpl. rewrite validate_continuity_appends.
  destruct (validate_continuity self scene_data [] []) as [found|]; simpl;
    [|discriminate].
  intros H. inversion H; subst; simpl in *.
  exists technical, found. repeat split; auto.
  - rewrite Hvalid. destruct (technical ++ fst found)%list; congruence.
  - intros ->. reflexivity.
Qed.

(** C5.  The composition check adds nothing when the scene has no
    composition block or [enforceRuleOfThirds] is off.  When it is on and
    the block sets [ruleOfThirds] to [false], the check adds the
    rule-of-thirds warning and no error: the errors of a result are those
    of the technical and continuity checks, and [valid] follows them.  A
    scene with nothing else to report stays valid, with that one
    warning. *)
Theorem rule_of_thirds_false_warns :
  (forall (self : validator) (scene_data : dict) (warnings : list value),
      dict_get "composition" scene_data = None
      \/ (exists composition_rules enforce,
             py_getitem (rules self) "composition" = Ok composition_rules
             /\ py_getitem composition_rules "enforceRuleOfThirds" = Ok enforce
             /\ py_truthy enforce = false) ->
      validate_composition self scene_data warnings = Ok warnings)
  /\ (forall (self : validator) (scene_data comp : dict)
             (composition_rules enforce : value),
         missing_fields scene_data = [] ->
         dict_get "composition" scene_data = Some (VDict comp) ->
         py_getitem (rules self) "composition" = Ok composition_rules ->
         py_getitem composition_rules "enforceRuleOfThirds" = Ok enforce ->
         py_truthy enforce = true ->
         dict_get "ruleOfThirds" comp = Some (VBool false) ->
         validate_composition self scene_data [] = Ok [rule_of_thirds_warning]
         /\ forall r,
             validate_scene_json self scene_data = Ok r ->
             exists technical found,
               validate_technical self scene_data [] = Ok technical
               /\ validate_continuity self scene_data [] [] = Ok found
               /\ errors r = (technical ++ fst found)%list
               /\ warnings r = rule_of_thirds_warning :: snd found
               /\ (valid r = true <-> (technical ++ fst found)%list = []))
  /\ (forall m : prompt -> reply,
         validate_scene_json (with_defaults m) (composed_scene (VBool false))
         = Ok {| valid := true;
                 errors := [];
                 warnings := [VStr "Scene does not follow rule of thirds"] |}).
Proof.
  split; [|split].
  - exact validate_composition_skips.
  - intros self scene_data comp cr enforce Hreq Hcomp Hcr Henf Hon Hflag.
    now apply (falsy_flag_in_result self scene_data comp cr enforce
                 (VBool false)).
  - intros m. reflexivity.
Qed.

Lemma rule_of_thirds_false_warns_witness :
  validate_composition (with_defaults silent_model)
    (composed_scene (VBool false)) []
  = Ok [rule_of_thirds_warning]
  /\ forall r,
      validate_scene_json (with_defaults silent_model)
        (composed_scene (VBool false)) = Ok r ->
      exists technical found,
        validate_technical (with_defaults silent_model)
          (composed_scene (VBool false)) [] = Ok technical
        /\ validate_continuity (with_defaults silent_model)
             (composed_scene (VBool false)) [] [] = Ok found
        /\ errors r = (technical ++ fst found)%list
        /\ warnings r = rule_of_thirds_warning :: snd found
        /\ (valid r = true <-> (technical ++ fst found)%list = []).
Proof.
  apply (proj1 (proj2 rule_of_thirds_false_warns)
           (with_defaults silent_model) (composed_scene (VBool false))
           [("ruleOfThirds", VBool false)]
           (VDict [ ("enforceRuleOfThirds", VBool true);
                    ("enforceHeadroom", VBool true);
                    ("enforceLeadingSpace", VBool true) ])
           (VBool true));
    reflexivity.
Defined.

(** C10.  The flag is tested for truthiness: with [enforceRuleOfThirds]
    on and a composition block that has the key, any falsy value brings
    the warning ([False], [0], the empty string, [None] and the empty list
    are such values) and any truthy value brings none. *)
Theorem rule_of_thirds_tests_truthiness :
  (forall (self : validator) (scene_data comp : dict)
          (composition_rules enforce flag : value),
      missing_fields scene_data = [] ->
      dict_get "composition" scene_data = Some (VDict comp) ->
      py_getitem (rules self) "composition" = Ok composition_rules ->
      py_getitem composition_rules "enforceRuleOfThirds" = Ok enforce ->
      py_truthy enforce = true ->
      dict_get "ruleOfThirds" comp = Some flag ->
      (py_truthy flag = false ->
       validate_composition self scene_data [] = Ok [rule_of_thirds_warning]
       /\ forall r,
           validate_scene_json self scene_data = Ok r ->
           exists found,
             validate_continuity self scene_data [] [] = Ok found
             /\ warnings r = rule_of_thirds_warning :: snd found)
      /\ (py_truthy flag = true ->
          validate_composition self scene_data [] = Ok []))
  /\ (forall flag,
         In flag [VBool false; VInt 0; VStr ""; VNone; VList []] ->
         py_truthy flag = false
         /\ forall m : prompt -> reply,
             validate_scene_json (with_defaults m) (composed_scene flag)
             = Ok {| valid := true;
                     errors := [];
                     warnings := [rule_of_thirds_warning] |}).
Proof.
  split.
  - intros self scene_data comp cr enforce flag Hreq Hcomp Hcr Henf Hon Hflag.
    split.
    + intros Hfalsy.
      destruct (falsy_flag_in_result self scene_data comp cr enforce flag
                  Hreq Hcomp Hcr Henf Hon Hflag Hfalsy) as [Hrun Hres].
      split; [exact Hrun|].
      intros r Hr. destruct (Hres r Hr) as (technical & found & _ & Hc & _ & Hw & _).
      eauto.
    + intros Htruthy.
      rewrite (validate_composition_flag _ _ _ _ _ _ _ Hcomp Hcr Henf Hon Hflag).
      now rewrite Htruthy.
  - intros flag Hin. simpl in Hin.
    repeat (destruct Hin as [<-|Hin]; [split; [reflexivity | intros m; reflexivity]|]).
    contradiction.
Qed.

Lemma rule_of_thirds_tests_truthiness_witness :
  validate_composition (with_defaults silent_model)
    (composed_scene (VInt 0)) []
  = Ok [rule_of_thirds_warning]
  /\ forall r,
      validate_scene_json (with_defaults silent_model)
        (composed_scene (VInt 0)) = Ok r ->
      exists found,
        validate_continuity (with_defaults silent_model)
          (composed_scene (VInt 0)) [] [] = Ok found
        /\ warnings r = rule_of_thirds_warning :: snd found.
Proof.
  apply (proj1 rule_of_thirds_tests_truthiness
           (with_defaults silent_model) (composed_scene (VInt 0))
           [("ruleOfThirds", VInt 0)]
           (VDict [ ("enforceRuleOfThirds", VBool true);
                    ("enforceHeadroom", VBool true);
                    ("enforceLeadingSpace", VBool true) ])
           (VBool true) (VInt 0));
    reflexivity.
Defined.

(** ** Totality on well-shaped scenes *)

(** X4.  Under the default rules a well-shaped scene always gets a result,
    whatever the collaborator answers. *)
Lemma validate_scene_json_returns (m : prompt -> reply) (scene_data : dict) :
  well_shaped scene_data = true ->
  exists r, validate_scene_json (with_defaults m) scene_data = Ok r.
Proof.
  unfold well_shaped. rewrite !andb_true_iff. intros [[Htech Hcomp] Hprev].
  unfold validate_scene_json.
  destruct (missing_fields scene_data); [|eauto].
  assert (Ht : exists technical,
    validate_technical (with_defaults m) scene_data [] = Ok technical).
  { unfold validate_technical.
    destruct (dict_get "technical" scene_data) as [[| | | | | |tech]|];
      try discriminate; [|eauto].
    simpl.
    erewrite check_allowed_dicts by reflexivity. simpl.
    erewrite check_allowed_dicts by reflexivity. simpl.
    erewrite check_allowed_dicts by reflexivity. eauto. }
  destruct Ht as [technical ->]. simpl.
  assert (Hc : exists composition,
    validate_composition (with_defaults m) scene_data [] = Ok composition).
  { unfold validate_composition.
    destruct (dict_get "composition" scene_data) as [[| | | | | |comp]|];
      try discriminate; [|eauto].
    simpl. unfold dict_has.
    destruct (dict_get "ruleOfThirds" comp) as [flag|]; simpl; [|eauto].
    destruct (py_truthy flag); eauto. }
  destruct Hc as [composition ->]. simpl.
  unfold validate_continuity, previous_of. simpl.
  destruct (dict_get "previousScenes" scene_data) as [[| | | | |items|]|];
    try discriminate; simpl.
  - destruct (Nat.ltb 0 (List.length items)); simpl; eauto.
  - eauto.
Qed.

(** ** Failures of the continuity check *)

(** C7, as the code has it.  Once the continuity check is reached, the
    call returns whatever the collaborator does.  When the collaborator
    raises or its text is not JSON, the result is that of the earlier
    checks with the one warning of the handler added and no error added.
    When the text parses to an object in which both fields are missing,
    nothing is added at all: the result is that of the earlier checks. *)
Theorem continuity_failure_degrades_to_warning
  (self : validator) (scene_data : dict) (technical composition : list value)
  (continuity_rules check_props : value) (n : nat) :
  missing_fields scene_data = [] ->
  validate_technical self scene_data [] = Ok technical ->
  validate_composition self scene_data [] = Ok composition ->
  py_getitem (rules self) "continuity" = Ok continuity_rules ->
  py_getitem continuity_rules "checkProps" = Ok check_props ->
  py_truthy check_props = true ->
  py_len (previous_of scene_data) = Ok n ->
  0 < n ->
  (exists r, validate_scene_json self scene_data = Ok r)
  /\ (model self (request_for scene_data) = CallFails
      \/ model self (request_for scene_data) = NotJson ->
      validate_scene_json self scene_data =
        Ok {| valid := Nat.eqb (List.length technical) 0;
              errors := technical;
              warnings :=
                (composition ++ [continuity_failure_warning])%list |})
  /\ (forall analysis,
         model self (request_for scene_data) = Parsed (VDict analysis) ->
         dict_get "continuityErrors" analysis = None ->
         dict_get "continuityWarnings" analysis = None ->
         validate_scene_json self scene_data =
           Ok {| valid := Nat.eqb (List.length technical) 0;
                 errors := technical;
                 warnings := composition |}).
Proof.
  intros Hreq Htech Hcomp Hcr Hcp Hon Hlen Hpos.
  assert (Hrun :
    validate_scene_json self scene_data =
    let found := analyze_continuity self scene_data technical composition in
    Ok {| valid := Nat.eqb (List.length (fst found)) 0;
          errors := fst found;
          warnings := snd found |}).
  { unfold validate_scene_json. rewrite Hreq, Htech; simpl.
    rewrite Hcomp; simpl. unfold validate_continuity.
    rewrite Hcr; simpl. rewrite Hcp; simpl. rewrite Hon, Hlen; simpl.
    destruct n; [inversion Hpos | reflexivity]. }
  repeat split.
  - rewrite Hrun. eauto.
  - intros Hfail. rewrite Hrun. unfold analyze_continuity.
    destruct Hfail as [-> | ->]; reflexivity.
  - intros analysis Hreply Herrors Hwarnings. rewrite Hrun.
    unfold analyze_continuity, extend_from. rewrite Hreply; simpl.
    unfold dict_has. rewrite Herrors, Hwarnings. reflexivity.
Qed.

Lemma continuity_failure_degrades_to_warning_witness :
  (exists r, validate_scene_json (with_defaults silent_model) sequel_scene = Ok r)
  /\ (silent_model (request_for sequel_scene) = CallFails
      \/ silent_model (request_for sequel_scene) = NotJson ->
      validate_scene_json (with_defaults silent_model) sequel_scene =
        Ok {| valid := true;
              errors := [];
              warnings := [continuity_failure_warning] |})
  /\ (forall analysis,
         silent_model (request_for sequel_scene) = Parsed (VDict analysis) ->
         dict_get "continuityErrors" analysis = None ->
         dict_get "continuityWarnings" analysis = None ->
         validate_scene_json (with_defaults silent_model) sequel_scene =
           Ok {| valid := true; errors := []; warnings := [] |}).
Proof.
  apply (continuity_failure_degrades_to_warning
           (with_defaults silent_model) sequel_scene [] []
           (VDict [ ("checkProps", VBool true);
                    ("checkWardrobe", VBool true);
                    ("checkLighting", VBool true);
                    ("checkTimeOfDay", VBool true) ])
           (VBool true) 1);
    try reflexivity.
  apply le_n.
Defined.

(** The claim of C7 fails where it counts missing fields as a failure: a
    reply that parses to an object without [continuityErrors] and
    [continuityWarnings] brings no warning. *)
Lemma reply_without_fields_brings_no_warning :
  validate_scene_json (with_defaults blank_model) sequel_scene
  = Ok {| valid := true; errors := []; warnings := [] |}
  /\ ~ (exists r,
          validate_scene_json (with_defaults blank_model) sequel_scene = Ok r
          /\ In continuity_failure_warning (warnings r)).
Proof.
  split; [reflexivity|].
  intros (r & Hr & Hin). vm_compute in Hr. inversion Hr; subst.
  exact Hin.
Qed.

(** ** The report *)

(** C9.  The text of a report is a title, a blank line, the status line, a
    blank line, then an Errors section and a Warnings section, each with
    one bullet per item and a closing blank line, and each left out when
    it would be empty.  The text does not depend on the output path or on
    the state of the files, so it is the same whether the write succeeds
    or not.  An accepted write stores that text; when [open] raises the
    files are as they were; when the write raises after [open], the text
    is returned all the same and the file holds what reached it, not what
    it held before.  The worked example reads as expected. *)
Theorem report_has_fixed_layout :
  (forall r output_path fs,
      fst (generate_report r output_path fs)
      = String.concat newline (report_layout r))
  /\ (forall r path fs,
         path <> "" ->
         (refuses fs path = false ->
          dict_get path (contents (snd (generate_report r (Some path) fs)))
          = Some (String.concat newline (report_layout r)))
         /\ (refuses fs path = true ->
             leaves fs path = None ->
             generate_report r (Some path) fs
             = (String.concat newline (report_layout r), fs))
         /\ (forall rest,
                refuses fs path = true ->
                leaves fs path = Some rest ->
                fst (generate_report r (Some path) fs)
                = String.concat newline (report_layout r)
                /\ dict_get path
                     (contents (snd (generate_report r (Some path) fs)))
                   = Some rest))
  /\ (forall heading items,
         (items = [] -> report_section heading items = [])
         /\ (items <> [] ->
             report_section heading items
             = (heading :: map bullet items ++ [""])%list))
  /\ (forall output_path fs,
         let text := fst (generate_report passing_with_warning output_path fs) in
         text
         = String.concat newline
             [ "# Scene Validation Report"; "";
               "## ✅ Scene is valid"; "";
               "## Warnings"; "- w1"; "" ]
         /\ substring_of "✅ Scene is valid" text = true
         /\ substring_of "Errors" text = false
         /\ substring_of ("## Warnings" ++ newline ++ "- w1" ++ newline) text
            = true).
Proof.
  assert (Htext : forall r output_path fs,
    fst (generate_report r output_path fs)
    = String.concat newline (report_layout r)).
  { intros [is_valid errs warns] output_path fs.
    unfold generate_report, report_layout, report_section; simpl.
    assert (Hfst : forall (text : string) (p : option string),
      fst match p with
          | None => (text, fs)
          | Some path =>
              if String.eqb path "" then (text, fs)
              else match write_text fs path text with
                   | Saved fs' => (text, fs')
                   | Failed fs' => (text, fs')
                   end
          end = text).
    { intros text [path|]; [|reflexivity].
      destruct (String.eqb path ""); [reflexivity|].
      now destruct (write_text fs path text). }
    rewrite Hfst. f_equal.
    destruct errs, warns; simpl; try reflexivity;
      repeat (rewrite <- app_assoc; simpl); reflexivity. }
  split; [exact Htext|]. split; [|split].
  - intros r path fs Hpath. split; [|split].
    + intros Hopen. specialize (Htext r (Some path) fs).
      unfold generate_report in *.
      destruct (String.eqb_spec path ""); [contradiction|].
      unfold write_text in *. rewrite Hopen in *. simpl in *.
      rewrite dict_get_set_eq. now rewrite Htext.
    + intros Hlocked Hnone. specialize (Htext r (Some path) fs).
      unfold generate_report in *.
      destruct (String.eqb_spec path ""); [contradiction|].
      unfold write_text in *. rewrite Hlocked, Hnone in *. simpl in *.
      now rewrite Htext.
    + intros rest Hlocked Hrest. split; [apply Htext|].
      unfold generate_report.
      destruct (String.eqb_spec path ""); [contradiction|].
      unfold write_text. rewrite Hlocked, Hrest. simpl.
      apply dict_get_set_eq.
  - intros heading items. split.
    + now intros ->.
    + intros Hne. destruct items; [contradiction | reflexivity].
  - intros output_path fs. simpl. rewrite Htext.
    repeat split; reflexivity.
Qed.

Lemma report_has_fixed_layout_witness :
  dict_get "report.md"
    (contents
       (snd (generate_report passing_with_warning (Some "report.md")
               open_disk)))
  = Some (String.concat newline (report_layout passing_with_warning))
  /\ generate_report passing_with_warning (Some "report.md") locked_disk
     = (String.concat newline (report_layout passing_with_warning),
        locked_disk)
  /\ fst (generate_report passing_with_warning (Some "report.md") plain_disk)
     = String.concat newline (report_layout passing_with_warning)
  /\ dict_get "report.md"
       (contents
          (snd (generate_report passing_with_warning (Some "report.md")
                  plain_disk)))
     = Some "".
Proof.
  destruct (proj1 (proj2 report_has_fixed_layout) passing_with_warning
              "report.md" open_disk) as (Hopen & _ & _); [discriminate|].
  destruct (proj1 (proj2 report_has_fixed_layout) passing_with_warning
              "report.md" locked_disk) as (_ & Hlocked & _); [discriminate|].
  destruct (proj1 (proj2 report_has_fixed_layout) passing_with_warning
              "report.md" plain_disk) as (_ & _ & Hplain); [discriminate|].
  split; [apply Hopen; reflexivity|].
  split; [apply Hlocked; reflexivity|].
  apply (Hplain ""); reflexivity.
Defined.

(** ** Worked examples *)

Example float_repr_samples :
  map float_repr [5.1; 7.1; 23.976; 24; 1e16; 0.00001]%float
  = ["5.1"; "7.1"; "23.976"; "24.0"; "1e+16"; "1e-05"].
Proof. vm_compute. reflexivity. Qed.

(** A float equal to an allowed integer is allowed; another float is
    reported as Python prints it. *)
Example frame_rate_as_float :
  field_errors "frameRate" "frame rate" [("frameRate", VFloat 24)]
    [VInt 24; VInt 25; VInt 30; VInt 60]
  = []
  /\ field_errors "frameRate" "frame rate" [("frameRate", VFloat 23.976)]
       [VInt 24; VInt 25; VInt 30; VInt 60]
     = [VStr "Invalid frame rate: 23.976. Must be one of [24, 25, 30, 60]"].
Proof. split; vm_compute; reflexivity. Qed.

(** A technical block that is no mapping is not reported: the subscript
    raises out of [validate_scene_json]. *)
Example technical_block_not_a_mapping :
  validate_scene_json (with_defaults silent_model)
    (minimal_scene ++ [("technical", VList [VStr "resolution"])])%list
  = Raise TypeError.
Proof. reflexivity. Qed.

(** A rules file with a section that is no mapping is given up as a
    whole, its other sections included. *)
Example malformed_section_falls_back :
  _load_rules
    (fun _ => Loaded (VDict [("technical", VInt 5); ("branding", VInt 1)]))
    (Some "rules.json")
  = default_rules.
Proof. reflexivity. Qed.

(** Errors taken from a reply stay even when the warnings of the same
    reply cannot be read. *)
Example reply_with_unreadable_warnings :
  validate_scene_json
    (with_defaults
       (fun _ =>
          Parsed (VDict [ ("continuityErrors", VList [VStr "prop moved"]);
                          ("continuityWarnings", VInt 5) ])))
    sequel_scene
  = Ok {| valid := false;
          errors := [VStr "prop moved"];
          warnings := [continuity_failure_warning] |}.
Proof. reflexivity. Qed.

(** A NaN frame rate is found in an allowed list that holds NaN, by
    identity, though it is not equal to it; and a list holding it equals
    another list holding it. *)
Example nan_is_found_by_identity :
  py_eq (VFloat nan) (VFloat nan) = false
  /\ py_contains (VFloat nan) (VList [VInt 24; VFloat nan]) = Ok true
  /\ py_eq (VList [VFloat nan]) (VList [VFloat nan]) = true
  /\ field_errors "frameRate" "frame rate" [("frameRate", VFloat nan)]
       [VInt 24; VFloat nan]
     = [].
Proof. repeat split; vm_compute; reflexivity. Qed.

(** In the allowed list of a message, a no-break space (U+00A0), a line
    separator (U+2028) and a private-use character (U+100000) are written
    as escapes, an accented letter as itself. *)
Example unprintable_characters_are_escaped :
  py_str
    (VList
       [ VStr (String "a" (String "194" (String "160" "b")));
         VStr (String "226" (String "128" (String "168" "")));
         VStr (String "244" (String "128" (String "128" (String "128" ""))));
         VStr (String "195" (String "169" "")) ])
  = String.concat ""
      [ "['a"; String backslash "xa0b', '";
        String backslash "u2028', '";
        String backslash "U00100000', '";
        String "195" (String "169" ""); "']" ].
Proof. vm_compute. reflexivity. Qed.

(* ===================================================================== *)
(** * Further properties of the code *)
(* ===================================================================== *)

(** ** [_load_rules] on any file *)

Lemma dict_has_set (A : Type) (k key : string) (v : A)
  (d : list (string * A)) :
  dict_has k d = true \/ k = key -> dict_has k (dict_set key v d) = true.
Proof.
  unfold dict_has. destruct (String.eqb_spec key k) as [->|Hne].
  - now rewrite dict_get_set_eq.
  - rewrite dict_get_set_ne by assumption. intros [H|H]; [exact H|congruence].
Qed.

Lemma dict_has_of_In (A : Type) (k : string) (d : list (string * A)) :
  In k (map fst d) -> dict_has k d = true.
Proof.
  unfold dict_has. induction d as [|[k' v'] d IH]; simpl; [contradiction|].
  destruct (String.eqb_spec k k'); [reflexivity|].
  intros [H|H]; [congruence | auto].
Qed.

(** A rules file that is no object cannot be merged. *)
Lemma merge_defaults_not_a_dict (custom_rules : value) :
  is_dict custom_rules = false ->
  exists e, merge_defaults default_sections custom_rules = Raise e.
Proof.
  destruct custom_rules as [| | | |text|items|]; try discriminate; intros _;
    simpl; eauto.
  - destruct (substring_of "technical" text); simpl; eauto.
  - destruct (existsb _ items); simpl; eauto.
Qed.

(** What the inner loop leaves behind when it does not raise. *)
Lemma fill_missing_keys_general (section : string) (defaults : dict) :
  forall (custom : dict) (result : value),
    fill_missing_keys section defaults (VDict custom) = Ok result ->
    exists custom',
      result = VDict custom'
      /\ (forall s, s <> section -> dict_get s custom' = dict_get s custom)
      /\ (forall before k,
             dict_get section custom = Some before ->
             exists after,
               dict_get section custom' = Some after
               /\ (py_contains (VStr k) before = Ok true ->
                   py_contains (VStr k) after = Ok true))
      /\ (forall k,
             In k (map fst defaults) ->
             exists after,
               dict_get section custom' = Some after
               /\ py_contains (VStr k) after = Ok true).
Proof.
  induction defaults as [|[key default] defaults IH]; intros custom result.
  - simpl. intros H. inversion H; subst. exists custom.
    repeat split; auto; [eauto | contradiction].
  - simpl. destruct (dict_get section custom) as [before|] eqn:Hsec; simpl;
      [|discriminate].
    destruct (py_contains (VStr key) before) as [[|]|] eqn:Hhas; simpl;
      [| |discriminate].
    + intros Hrun.
      destruct (IH custom result Hrun) as (custom' & -> & Hother & Hmono & Hall).
      exists custom'. repeat split; auto.
      * intros before0 k Hbefore. inversion Hbefore; subst before0. auto.
      * intros k [<-|Hin]; [|auto].
        destruct (Hmono before key Hsec) as (after & Hafter & Hkeep). eauto.
    + destruct before as [| | | | | |entries]; simpl; try discriminate.
      intros Hrun.
      destruct (IH _ result Hrun) as (custom' & -> & Hother & Hmono & Hall).
      assert (Hsec' :
        dict_get section
          (dict_set section (VDict (dict_set key default entries)) custom)
        = Some (VDict (dict_set key default entries)))
        by apply dict_get_set_eq.
      exists custom'. repeat split.
      * intros s Hs. rewrite Hother by assumption.
        apply dict_get_set_ne. congruence.
      * intros before k Hbefore. inversion Hbefore; subst before.
        destruct (Hmono _ k Hsec') as (after & Hafter & Hkeep).
        exists after. split; [exact Hafter|].
        intros Hk. apply Hkeep. simpl in *.
        inversion Hk as [Hk']. rewrite Hk'. now rewrite dict_has_set by auto.
      * intros k [<-|Hin]; [|auto].
        destruct (Hmono _ key Hsec') as (after & Hafter & Hkeep).
        exists after. split; [exact Hafter|]. apply Hkeep. simpl.
        now rewrite dict_has_set by auto.
Qed.

(** What the outer loop leaves behind when it does not raise: an object
    that has kept its keys and in which every default section holds every
    default key. *)
Lemma merge_defaults_general (defaults : dict) :
  NoDup (map fst defaults) ->
  (forall s v, In (s, v) defaults -> exists keys, v = VDict keys) ->
  forall (custom : dict) (result : value),
    merge_defaults defaults (VDict custom) = Ok result ->
    exists merged,
      result = VDict merged
      /\ (forall s, dict_get s defaults = None ->
                    dict_get s merged = dict_get s custom)
      /\ (forall s, dict_has s custom = true -> dict_has s merged = true)
      /\ (forall s keys,
             In (s, VDict keys) defaults ->
             exists held,
               dict_get s merged = Some held
               /\ forall k, In k (map fst keys) ->
                            py_contains (VStr k) held = Ok true).
Proof.
  induction defaults as [|[section default] defaults IH];
    intros Hnodup Hdicts custom result.
  - simpl. intros H. inversion H; subst. exists custom.
    repeat split; auto. contradiction.
  - simpl in Hnodup. inversion Hnodup as [|? ? Hfresh Hnodup']; subst.
    destruct (Hdicts section default (or_introl eq_refl)) as [keys ->].
    assert (Hdicts' :
      forall s v, In (s, v) defaults -> exists keys, v = VDict keys)
      by (intros s v Hin; apply (Hdicts s v); now right).
    assert (Hskip : dict_get section defaults = None)
      by now apply dict_get_notin.
    simpl. unfold dict_has at 1.
    destruct (dict_get section custom) as [before|] eqn:Hsec; simpl.
    + destruct (fill_missing_keys section keys (VDict custom))
        as [filled|] eqn:Hfill; simpl; [|discriminate].
      destruct (fill_missing_keys_general _ _ _ _ Hfill)
        as (custom1 & -> & Hother & Hmono & Hall).
      intros Hrun.
      destruct (IH Hnodup' Hdicts' custom1 result Hrun)
        as (merged & -> & Hn & Hkeep & Hheld).
      destruct (Hmono before section Hsec) as (after & Hafter & _).
      exists merged. repeat split.
      * intros s. destruct (String.eqb_spec s section) as [->|Hs];
          [discriminate|]. intros Hd. rewrite Hn by assumption. now apply Hother.
      * intros s Hs. apply Hkeep. unfold dict_has in *.
        destruct (String.eqb_spec s section) as [->|Hne].
        -- now rewrite Hafter.
        -- now rewrite Hother.
      * intros s keys0 [Heq|Hin]; [|now apply Hheld].
        inversion Heq; subst s keys0. exists after.
        split; [now rewrite Hn, Hafter|].
        intros k Hk. destruct (Hall k Hk) as (after' & Hafter' & Hk').
        congruence.
    + intros Hrun.
      destruct (IH Hnodup' Hdicts' _ result Hrun)
        as (merged & -> & Hn & Hkeep & Hheld).
      exists merged. repeat split.
      * intros s. destruct (String.eqb_spec s section) as [->|Hs];
          [discriminate|]. intros Hd. rewrite Hn by assumption.
        apply dict_get_set_ne. congruence.
      * intros s Hs. apply Hkeep. apply dict_has_set. now left.
      * intros s keys0 [Heq|Hin]; [|now apply Hheld].
        inversion Heq; subst s keys0. exists (VDict keys).
        split; [rewrite Hn by assumption; apply dict_get_set_eq|].
        intros k Hk. simpl. now rewrite dict_has_of_In.
Qed.

(** Nothing is stored on an object that is complete already. *)
Lemma fill_missing_keys_complete (section : string) (defaults : dict)
  (custom : dict) (held : value) :
  dict_get section custom = Some held ->
  (forall k, In k (map fst defaults) -> py_contains (VStr k) held = Ok true) ->
  fill_missing_keys section defaults (VDict custom) = Ok (VDict custom).
Proof.
  intros Hsec. induction defaults as [|[key default] defaults IH];
    intros Hall; [reflexivity|].
  simpl. rewrite Hsec; simpl. rewrite (Hall key) by now left. simpl.
  apply IH. intros k Hk. apply Hall. now right.
Qed.

Lemma merge_defaults_complete (defaults : dict) (custom : dict) :
  (forall s v,
      In (s, v) defaults ->
      exists keys held,
        v = VDict keys
        /\ dict_get s custom = Some held
        /\ forall k, In k (map fst keys) ->
                     py_contains (VStr k) held = Ok true) ->
  merge_defaults defaults (VDict custom) = Ok (VDict custom).
Proof.
  induction defaults as [|[section default] defaults IH]; intros Hall;
    [reflexivity|].
  destruct (Hall section default (or_introl eq_refl))
    as (keys & held & -> & Hheld & Hkeys).
  simpl. unfold dict_has. rewrite Hheld. simpl.
  rewrite (fill_missing_keys_complete _ _ _ _ Hheld Hkeys). simpl.
  apply IH. intros s v Hin. apply Hall. now right.
Qed.

(** A default section that holds a scalar stops the merge. *)
Lemma merge_defaults_scalar_section (defaults : dict) :
  NoDup (map fst defaults) ->
  (forall s v, In (s, v) defaults -> exists keys, v = VDict keys) ->
  forall (custom : dict) (section : string) (keys : dict) (held : value),
    In (section, VDict keys) defaults ->
    keys <> [] ->
    dict_get section custom = Some held ->
    scalar held = true ->
    exists e, merge_defaults defaults (VDict custom) = Raise e.
Proof.
  induction defaults as [|[section0 default0] defaults IH];
    intros Hnodup Hdicts custom section keys held Hin Hkeys Hheld Hscalar;
    [contradiction|].
  simpl in Hnodup. inversion Hnodup as [|? ? Hfresh Hnodup']; subst.
  assert (Hdicts' :
    forall s v, In (s, v) defaults -> exists keys, v = VDict keys)
    by (intros s v Hin'; apply (Hdicts s v); now right).
  destruct Hin as [Heq|Hin].
  - inversion Heq; subst section0 default0. simpl. unfold dict_has.
    rewrite Hheld. simpl.
    destruct keys as [|[key default] keys]; [contradiction|].
    simpl. rewrite Hheld. simpl.
    destruct held; try discriminate; simpl; eauto.
  - assert (Hne : section <> section0).
    { intros ->. apply Hfresh.
      change section0 with (fst (section0, VDict keys)). now apply in_map. }
    destruct (Hdicts section0 default0 (or_introl eq_refl)) as [keys0 ->].
    simpl. unfold dict_has.
    destruct (dict_get section0 custom) as [before|] eqn:Hsec; simpl.
    + destruct (fill_missing_keys section0 keys0 (VDict custom))
        as [filled|] eqn:Hfill; simpl; [|eauto].
      destruct (fill_missing_keys_general _ _ _ _ Hfill)
        as (custom1 & -> & Hother & _).
      apply (IH Hnodup' Hdicts' custom1 section keys held); auto.
      now rewrite Hother.
    + apply (IH Hnodup' Hdicts' _ section keys held); auto.
      rewrite dict_get_set_ne by congruence. assumption.
Qed.

(** X1.  Whatever the rules file holds, [_load_rules] returns an object with
    the three default sections, so that [self.rules[section]] never fails. *)
Theorem load_rules_has_every_section
  (json_load : string -> load_result) (rules_path : option string) :
  exists merged,
    _load_rules json_load rules_path = VDict merged
    /\ forall section,
        In section ["technical"; "composition"; "continuity"] ->
        exists held,
          dict_get section merged = Some held
          /\ py_getitem (_load_rules json_load rules_path) section = Ok held.
Proof.
  assert (Hdefault :
    exists merged,
      default_rules = VDict merged
      /\ forall section,
          In section ["technical"; "composition"; "continuity"] ->
          exists held,
            dict_get section merged = Some held
            /\ py_getitem default_rules section = Ok held).
  { exists default_sections. split; [reflexivity|].
    intros section Hin. simpl in Hin.
    repeat (destruct Hin as [<-|Hin]; [eexists; split; reflexivity|]).
    contradiction. }
  unfold _load_rules. destruct rules_path as [path|]; [|exact Hdefault].
  destruct (String.eqb path ""); [exact Hdefault|].
  destruct (json_load path) as [|custom_rules]; [exact Hdefault|].
  destruct (merge_defaults default_sections custom_rules) as [result|] eqn:Hrun;
    [|exact Hdefault].
  destruct (is_dict custom_rules) eqn:Hshape;
    [|destruct (merge_defaults_not_a_dict _ Hshape) as [e He]; congruence].
  destruct custom_rules as [| | | | | |custom]; try discriminate.
  destruct (merge_defaults_general _ default_sections_nodup
              default_sections_are_dicts _ _ Hrun)
    as (merged & -> & _ & _ & Hheld).
  exists merged. split; [reflexivity|].
  intros section Hin. simpl in Hin.
  repeat (destruct Hin as [<-|Hin];
    [ match goal with
      | |- exists held, dict_get ?s _ = _ /\ _ =>
          destruct (dict_get s default_sections) as [[| | | | | |keys]|] eqn:Hd;
            try discriminate;
          destruct (Hheld s keys (dict_get_In _ _ _ _ Hd)) as (held & Hget & _);
          exists held; simpl; rewrite Hget; split; reflexivity
      end |]).
  contradiction.
Qed.

(** X2.  A rules file that cannot be read, or that is no object, or in which a
    default section holds [null], a boolean or a number, is given up as a
    whole: the rules are the defaults. *)
Theorem load_rules_falls_back
  (json_load : string -> load_result) (path : string) :
  json_load path = LoadFails
  \/ (exists custom_rules,
         json_load path = Loaded custom_rules /\ is_dict custom_rules = false)
  \/ (exists custom section held,
         json_load path = Loaded (VDict custom)
         /\ In section ["technical"; "composition"; "continuity"]
         /\ dict_get section custom = Some held
         /\ scalar held = true) ->
  _load_rules json_load (Some path) = default_rules.
Proof.
  intros Hbad. unfold _load_rules.
  destruct (String.eqb path ""); [reflexivity|].
  destruct Hbad as [-> | [(custom_rules & -> & Hshape)
                         | (custom & section & held & -> & Hin & Hheld & Hsc)]].
  - reflexivity.
  - destruct (merge_defaults_not_a_dict _ Hshape) as [e ->]. reflexivity.
  - assert (Hkeys : exists keys,
      In (section, VDict keys) default_sections /\ keys <> []).
    { simpl in Hin.
      repeat (destruct Hin as [<-|Hin];
        [eexists; split; [simpl; eauto 6 | discriminate]|]).
      contradiction. }
    destruct Hkeys as (keys & Hsec & Hne).
    destruct (merge_defaults_scalar_section _ default_sections_nodup
                default_sections_are_dicts custom section keys held
                Hsec Hne Hheld Hsc) as [e ->].
    reflexivity.
Qed.

Lemma load_rules_falls_back_witness :
  _load_rules broken_loader (Some "rules.json") = default_rules.
Proof.
  apply (load_rules_falls_back broken_loader "rules.json").
  right. right. exists broken_rules, "technical", VNone.
  repeat split; simpl; auto.
Defined.

(** X3.  Loading what [_load_rules] returned gives it back: the merge adds
    nothing to rules that went through it once. *)
Theorem load_rules_idempotent
  (json_load : string -> load_result) (rules_path : option string)
  (again : string -> load_result) (path : string) :
  path <> "" ->
  again path = Loaded (_load_rules json_load rules_path) ->
  _load_rules again (Some path) = _load_rules json_load rules_path.
Proof.
  intros Hpath Hagain.
  assert (Hcomplete :
    merge_defaults default_sections (_load_rules json_load rules_path)
    = Ok (_load_rules json_load rules_path)).
  { assert (Hdefault :
      merge_defaults default_sections default_rules = Ok default_rules)
      by reflexivity.
    unfold _load_rules. destruct rules_path as [first|]; [|exact Hdefault].
    destruct (String.eqb first ""); [exact Hdefault|].
    destruct (json_load first) as [|custom_rules]; [exact Hdefault|].
    destruct (merge_defaults default_sections custom_rules)
      as [result|] eqn:Hrun; [|exact Hdefault].
    destruct (is_dict custom_rules) eqn:Hshape;
      [|destruct (merge_defaults_not_a_dict _ Hshape) as [e He]; congruence].
    destruct custom_rules as [| | | | | |custom]; try discriminate.
    destruct (merge_defaults_general _ default_sections_nodup
                default_sections_are_dicts _ _ Hrun)
      as (merged & -> & _ & _ & Hheld).
    apply merge_defaults_complete. intros s v Hin.
    destruct (default_sections_are_dicts s v Hin) as [keys ->].
    destruct (Hheld s keys Hin) as (held & Hget & Hkeys).
    exists keys, held. auto. }
  unfold _load_rules at 1.
  destruct (String.eqb_spec path ""); [contradiction|].
  now rewrite Hagain, Hcomplete.
Qed.

Lemma load_rules_idempotent_witness :
  _load_rules
    (fun _ => Loaded (_load_rules studio_loader (Some "rules.json")))
    (Some "merged.json")
  = _load_rules studio_loader (Some "rules.json").
Proof.
  apply (load_rules_idempotent studio_loader (Some "rules.json")
           (fun _ => Loaded (_load_rules studio_loader (Some "rules.json")))
           "merged.json").
  - discriminate.
  - reflexivity.
Defined.

(** ** [validate_scene_json]: malformed blocks and unread rules *)

Lemma validate_scene_json_returns_witness :
  exists r, validate_scene_json (with_defaults thorough_model) sequel_scene = Ok r.
Proof.
  apply (validate_scene_json_returns thorough_model sequel_scene).
  reflexivity.
Defined.

(** X5.  A block that holds [null], a boolean or a number is not reported as
    an error of the scene: the call raises.  This is so for the technical
    block, for the composition block when the rule of thirds is enforced, and
    for the previous scenes when [checkProps] is on. *)
Theorem scalar_block_raises (self : validator) (scene_data : dict) :
  missing_fields scene_data = [] ->
  (exists block,
      dict_get "technical" scene_data = Some block /\ scalar block = true)
  \/ (exists block composition_rules enforce,
         dict_get "composition" scene_data = Some block
         /\ scalar block = true
         /\ py_getitem (rules self) "composition" = Ok composition_rules
         /\ py_getitem composition_rules "enforceRuleOfThirds" = Ok enforce
         /\ py_truthy enforce = true)
  \/ (exists block continuity_rules check_props,
         dict_get "previousScenes" scene_data = Some block
         /\ scalar block = true
         /\ py_getitem (rules self) "continuity" = Ok continuity_rules
         /\ py_getitem continuity_rules "checkProps" = Ok check_props
         /\ py_truthy check_props = true) ->
  exists e, validate_scene_json self scene_data = Raise e.
Proof.
  intros Hreq Hbad. unfold validate_scene_json. rewrite Hreq.
  destruct Hbad as [(block & Hblock & Hsc)
                   | [(block & cr & enforce & Hblock & Hsc & Hcr & Henf & Hon)
                     | (block & cr & cp & Hblock & Hsc & Hcr & Hcp & Hon)]].
  - unfold validate_technical. rewrite Hblock.
    destruct (py_getitem (rules self) "technical"); simpl; [|eauto].
    destruct block; try discriminate; simpl; eauto.
  - destruct (validate_technical self scene_data []); simpl; [|eauto].
    unfold validate_composition. rewrite Hblock, Hcr; simpl.
    rewrite Henf; simpl. rewrite Hon.
    destruct block; try discriminate; simpl; eauto.
  - destruct (validate_technical self scene_data []); simpl; [|eauto].
    destruct (validate_composition self scene_data []); simpl; [|eauto].
    unfold validate_continuity, previous_of. rewrite Hcr; simpl.
    rewrite Hcp; simpl. rewrite Hon, Hblock.
    destruct block; try discriminate; simpl; eauto.
Qed.

Lemma scalar_block_raises_witness :
  exists e,
    validate_scene_json (with_defaults silent_model) orphan_scene = Raise e.
Proof.
  apply (scalar_block_raises (with_defaults silent_model) orphan_scene).
  - reflexivity.
  - right. right.
    exists VNone,
      (VDict [ ("checkProps", VBool true);
               ("checkWardrobe", VBool true);
               ("checkLighting", VBool true);
               ("checkTimeOfDay", VBool true) ]),
      (VBool true).
    repeat split.
Defined.

Lemma check_allowed_reads_one_key (tech x y : value) (key label : string)
  (errors : list value) :
  py_getitem x key = py_getitem y key ->
  check_allowed tech x key label errors = check_allowed tech y key label errors.
Proof.
  intros H. unfold check_allowed.
  destruct (py_contains (VStr key) tech) as [[|]|]; simpl; try reflexivity.
  destruct (py_getitem tech key); simpl; [|reflexivity]. now rewrite H.
Qed.

(** X6.  Of the rules, a validation reads the three allowed lists of the
    technical section, [enforceRuleOfThirds] and [checkProps], and nothing
    else: two rule sets that agree on these give the same outcome on every
    scene.  The audio lists, [enforceHeadroom], [enforceLeadingSpace],
    [checkWardrobe], [checkLighting] and [checkTimeOfDay] change nothing. *)
Theorem unread_rules_change_nothing
  (rules1 rules2 : value) (m : prompt -> reply) (scene_data : dict) :
  consulted_alike ["resolution"; "frameRate"; "colorSpace"]
    (py_getitem rules1 "technical") (py_getitem rules2 "technical") ->
  consulted_alike ["enforceRuleOfThirds"]
    (py_getitem rules1 "composition") (py_getitem rules2 "composition") ->
  consulted_alike ["checkProps"]
    (py_getitem rules1 "continuity") (py_getitem rules2 "continuity") ->
  validate_scene_json {| rules := rules1; model := m |} scene_data
  = validate_scene_json {| rules := rules2; model := m |} scene_data.
Proof.
  intros Htech Hcomp Hcont. unfold validate_scene_json.
  destruct (missing_fields scene_data); [|reflexivity].
  assert (Ht : forall errors,
    validate_technical {| rules := rules1; model := m |} scene_data errors
    = validate_technical {| rules := rules2; model := m |} scene_data errors).
  { intros errors. unfold validate_technical; simpl.
    destruct (dict_get "technical" scene_data) as [tech|]; [|reflexivity].
    unfold consulted_alike in Htech.
    destruct (py_getitem rules1 "technical") as [x|e1],
             (py_getitem rules2 "technical") as [y|e2];
      simpl; try contradiction; [|congruence].
    rewrite (check_allowed_reads_one_key tech x y "resolution")
      by (apply Htech; simpl; auto).
    destruct (check_allowed tech y "resolution" "resolution" errors)
      as [errors1|]; simpl; [|reflexivity].
    rewrite (check_allowed_reads_one_key tech x y "frameRate")
      by (apply Htech; simpl; auto).
    destruct (check_allowed tech y "frameRate" "frame rate" errors1)
      as [errors2|]; simpl; [|reflexivity].
    apply check_allowed_reads_one_key. apply Htech; simpl; auto. }
  assert (Hc : forall warnings,
    validate_composition {| rules := rules1; model := m |} scene_data warnings
    = validate_composition {| rules := rules2; model := m |} scene_data
        warnings).
  { intros warnings. unfold validate_composition; simpl.
    destruct (dict_get "composition" scene_data) as [comp|]; [|reflexivity].
    unfold consulted_alike in Hcomp.
    destruct (py_getitem rules1 "composition") as [x|e1],
             (py_getitem rules2 "composition") as [y|e2];
      simpl; try contradiction; [|congruence].
    now rewrite (Hcomp "enforceRuleOfThirds") by (simpl; auto). }
  assert (Hk : forall errors warnings,
    validate_continuity {| rules := rules1; model := m |} scene_data
      errors warnings
    = validate_continuity {| rules := rules2; model := m |} scene_data
        errors warnings).
  { intros errors warnings. unfold validate_continuity; simpl.
    unfold consulted_alike in Hcont.
    destruct (py_getitem rules1 "continuity") as [x|e1],
             (py_getitem rules2 "continuity") as [y|e2];
      simpl; try contradiction; [|congruence].
    now rewrite (Hcont "checkProps") by (simpl; auto). }
  rewrite Ht. destruct (validate_technical _ scene_data []); simpl;
    [|reflexivity].
  rewrite Hc. destruct (validate_composition _ scene_data []); simpl;
    [|reflexivity].
  now rewrite Hk.
Qed.

Lemma unread_rules_change_nothing_witness :
  validate_scene_json
    {| rules := default_rules; model := thorough_model |} sequel_scene
  = validate_scene_json
      {| rules := trimmed_rules; model := thorough_model |} sequel_scene.
Proof.
  apply (unread_rules_change_nothing default_rules trimmed_rules
           thorough_model sequel_scene);
    simpl; intros k Hk;
    repeat (destruct Hk as [<-|Hk]; [reflexivity|]); contradiction.
Defined.

(** ** What is taken from the reply of the collaborator *)

Lemma reached_continuity (self : validator) (scene_data : dict)
  (technical composition : list value)
  (continuity_rules check_props : value) (n : nat) :
  missing_fields scene_data = [] ->
  validate_technical self scene_data [] = Ok technical ->
  validate_composition self scene_data [] = Ok composition ->
  py_getitem (rules self) "continuity" = Ok continuity_rules ->
  py_getitem continuity_rules "checkProps" = Ok check_props ->
  py_truthy check_props = true ->
  py_len (previous_of scene_data) = Ok n ->
  0 < n ->
  validate_scene_json self scene_data
  = Ok (result_of (analyze_continuity self scene_data technical composition)).
Proof.
  intros Hreq Htech Hcomp Hcr Hcp Hon Hlen Hpos.
  unfold validate_scene_json. rewrite Hreq, Htech; simpl.
  rewrite Hcomp; simpl. unfold validate_continuity.
  rewrite Hcr; simpl. rewrite Hcp; simpl. rewrite Hon, Hlen; simpl.
  destruct n; [inversion Hpos | reflexivity].
Qed.

Lemma py_iter_falsy (found : value) (items : list value) :
  py_iter found = Ok items -> py_truthy found = false -> items = [].
Proof.
  destruct found as [| | | |text|listed|entries]; simpl; try discriminate.
  - destruct text; [|discriminate]. intros H _. now inversion H.
  - destruct listed; [|discriminate]. intros H _. now inversion H.
  - destruct entries; [|discriminate]. intros H _. now inversion H.
Qed.

Lemma extend_from_readable (findings : list value) (analysis : dict)
  (key : string) (found : value) (items : list value) :
  dict_get key analysis = Some found ->
  py_iter found = Ok items ->
  extend_from findings (VDict analysis) key = Ok (findings ++ items)%list.
Proof.
  intros Hget Hiter. unfold extend_from; simpl. unfold dict_has.
  rewrite Hget; simpl. destruct (py_truthy found) eqn:Htruthy.
  - now rewrite Hiter.
  - rewrite (py_iter_falsy _ _ Hiter Htruthy). now rewrite app_nil_r.
Qed.

Lemma extend_from_unreadable (findings : list value) (analysis : dict)
  (key : string) (found : value) :
  dict_get key analysis = Some found ->
  py_truthy found = true ->
  scalar found = true ->
  exists e, extend_from findings (VDict analysis) key = Raise e.
Proof.
  intros Hget Htruthy Hscalar. unfold extend_from; simpl. unfold dict_has.
  rewrite Hget; simpl. rewrite Htruthy.
  destruct found; try discriminate; simpl; eauto.
Qed.

(** X7.  When the continuity check runs and the reply is an object whose two
    fields can be iterated, the items of [continuityErrors] are appended to
    the errors and those of [continuityWarnings] to the warnings, behind what
    the earlier checks found: a list gives its items, a string its characters
    one by one, an object its keys. *)
Theorem findings_are_appended
  (self : validator) (scene_data : dict) (technical composition : list value)
  (continuity_rules check_props : value) (n : nat)
  (analysis : dict) (found_errors found_warnings : value)
  (new_errors new_warnings : list value) :
  missing_fields scene_data = [] ->
  validate_technical self scene_data [] = Ok technical ->
  validate_composition self scene_data [] = Ok composition ->
  py_getitem (rules self) "continuity" = Ok continuity_rules ->
  py_getitem continuity_rules "checkProps" = Ok check_props ->
  py_truthy check_props = true ->
  py_len (previous_of scene_data) = Ok n ->
  0 < n ->
  model self (request_for scene_data) = Parsed (VDict analysis) ->
  dict_get "continuityErrors" analysis = Some found_errors ->
  py_iter found_errors = Ok new_errors ->
  dict_get "continuityWarnings" analysis = Some found_warnings ->
  py_iter found_warnings = Ok new_warnings ->
  validate_scene_json self scene_data
  = Ok {| valid := Nat.eqb (List.length (technical ++ new_errors)) 0;
          errors := (technical ++ new_errors)%list;
          warnings := (composition ++ new_warnings)%list |}.
Proof.
  intros Hreq Htech Hcomp Hcr Hcp Hon Hlen Hpos Hreply He Hie Hw Hiw.
  rewrite (reached_continuity _ _ _ _ _ _ _ Hreq Htech Hcomp Hcr Hcp Hon
             Hlen Hpos).
  unfold analyze_continuity. rewrite Hreply.
  rewrite (extend_from_readable _ _ _ _ _ He Hie).
  rewrite (extend_from_readable _ _ _ _ _ Hw Hiw). reflexivity.
Qed.

Lemma findings_are_appended_witness :
  validate_scene_json (with_defaults thorough_model) sequel_scene
  = Ok {| valid := false;
          errors := [VStr "prop moved"; VStr "coat changed"];
          warnings := [VStr "light is warmer"] |}.
Proof.
  apply (findings_are_appended (with_defaults thorough_model) sequel_scene
           [] []
           (VDict [ ("checkProps", VBool true);
                    ("checkWardrobe", VBool true);
                    ("checkLighting", VBool true);
                    ("checkTimeOfDay", VBool true) ])
           (VBool true) 1 thorough_analysis
           (VList [VStr "prop moved"; VStr "coat changed"])
           (VList [VStr "light is warmer"])
           [VStr "prop moved"; VStr "coat changed"]
           [VStr "light is warmer"]);
    try reflexivity.
  apply le_n.
Defined.

(** X8.  When a field of the reply is a number or [true], extending with it
    raises inside the [try].  If that field is [continuityErrors], nothing of
    the reply is kept, its warnings included.  If it is [continuityWarnings],
    the errors taken just before stay in the result: the scene is marked by
    them and carries the warning of the handler as well. *)
Theorem unreadable_field_of_the_reply
  (self : validator) (scene_data : dict) (technical composition : list value)
  (continuity_rules check_props : value) (n : nat) (analysis : dict) :
  missing_fields scene_data = [] ->
  validate_technical self scene_data [] = Ok technical ->
  validate_composition self scene_data [] = Ok composition ->
  py_getitem (rules self) "continuity" = Ok continuity_rules ->
  py_getitem continuity_rules "checkProps" = Ok check_props ->
  py_truthy check_props = true ->
  py_len (previous_of scene_data) = Ok n ->
  0 < n ->
  model self (request_for scene_data) = Parsed (VDict analysis) ->
  (forall found_errors,
      dict_get "continuityErrors" analysis = Some found_errors ->
      py_truthy found_errors = true ->
      scalar found_errors = true ->
      validate_scene_json self scene_data
      = Ok {| valid := Nat.eqb (List.length technical) 0;
              errors := technical;
              warnings :=
                (composition ++ [continuity_failure_warning])%list |})
  /\ (forall found_errors new_errors found_warnings,
         dict_get "continuityErrors" analysis = Some found_errors ->
         py_iter found_errors = Ok new_errors ->
         dict_get "continuityWarnings" analysis = Some found_warnings ->
         py_truthy found_warnings = true ->
         scalar found_warnings = true ->
         validate_scene_json self scene_data
         = Ok {| valid := Nat.eqb (List.length (technical ++ new_errors)) 0;
                 errors := (technical ++ new_errors)%list;
                 warnings :=
                   (composition ++ [continuity_failure_warning])%list |}).
Proof.
  intros Hreq Htech Hcomp Hcr Hcp Hon Hlen Hpos Hreply.
  rewrite (reached_continuity _ _ _ _ _ _ _ Hreq Htech Hcomp Hcr Hcp Hon
             Hlen Hpos).
  unfold analyze_continuity. rewrite Hreply. split.
  - intros found_errors He Htruthy Hscalar.
    destruct (extend_from_unreadable technical _ _ _ He Htruthy Hscalar)
      as [e ->].
    reflexivity.
  - intros found_errors new_errors found_warnings He Hie Hw Htruthy Hscalar.
    rewrite (extend_from_readable _ _ _ _ _ He Hie).
    destruct (extend_from_unreadable composition _ _ _ Hw Htruthy Hscalar)
      as [e ->].
    reflexivity.
Qed.

Lemma unreadable_field_of_the_reply_witness :
  validate_scene_json (with_defaults careless_model) sequel_scene
  = Ok {| valid := false;
          errors := [VStr "prop moved"];
          warnings := [continuity_failure_warning] |}.
Proof.
  apply (proj2
           (unreadable_field_of_the_reply (with_defaults careless_model)
              sequel_scene [] []
              (VDict [ ("checkProps", VBool true);
                       ("checkWardrobe", VBool true);
                       ("checkLighting", VBool true);
                       ("checkTimeOfDay", VBool true) ])
              (VBool true) 1 careless_analysis
              eq_refl eq_refl eq_refl eq_refl eq_refl eq_refl eq_refl
              (le_n 1) eq_refl)
           (VList [VStr "prop moved"]) [VStr "prop moved"] (VInt 5));
    reflexivity.
Defined.

(** ** [generate_report]: what is written and what is shown *)

Lemma report_text (r : ValidationResult) (output_path : option string)
  (fs : filesystem) :
  fst (generate_report r output_path fs)
  = String.concat newline (report_layout r).
Proof.
  destruct r as [is_valid errs warns].
  unfold generate_report, report_layout, report_section; simpl.
  assert (Hfst : forall (text : string) (p : option string),
    fst match p with
        | None => (text, fs)
        | Some path =>
            if String.eqb path "" then (text, fs)
            else match write_text fs path text with
                 | Saved fs' => (text, fs')
                 | Failed fs' => (text, fs')
                 end
        end = text).
  { intros text [path|]; [|reflexivity].
    destruct (String.eqb path ""); [reflexivity|].
    now destruct (write_text fs path text). }
  rewrite Hfst. f_equal.
  destruct errs, warns; simpl; try reflexivity;
    repeat (rewrite <- app_assoc; simpl); reflexivity.
Qed.

(** X9.  Writing a report touches the file at the output path and nothing
    else: every other file holds what it held, and without an output path
    (none, or the empty string) the files are left as they were. *)
Theorem report_writes_one_file (r : ValidationResult)
  (output_path : option string) (fs : filesystem) :
  (forall other,
      output_path <> Some other ->
      dict_get other (contents (snd (generate_report r output_path fs)))
      = dict_get other (contents fs))
  /\ (given output_path = false ->
      snd (generate_report r output_path fs) = fs).
Proof.
  unfold generate_report, given.
  destruct output_path as [path|]; simpl; [|auto].
  destruct (String.eqb path ""); simpl; [auto|].
  unfold write_text. destruct (refuses fs path); simpl.
  - split; [|discriminate].
    intros other Hother. destruct (leaves fs path); simpl; [|reflexivity].
    apply dict_get_set_ne. congruence.
  - split; [|discriminate].
    intros other Hother. apply dict_get_set_ne. congruence.
Qed.

Lemma report_writes_one_file_witness :
  dict_get "notes.md"
    (contents
       (snd (generate_report passing_with_warning (Some "report.md")
               open_disk)))
  = dict_get "notes.md" (contents open_disk)
  /\ snd (generate_report passing_with_warning (Some "") open_disk)
     = open_disk.
Proof.
  split.
  - apply (proj1 (report_writes_one_file passing_with_warning
                    (Some "report.md") open_disk)).
    discriminate.
  - apply (proj2 (report_writes_one_file passing_with_warning
                    (Some "") open_disk)).
    reflexivity.
Defined.

(** X10.  The report of a result that [validate_scene_json] returned never
    contradicts itself: under the heading of a valid scene there is no Errors
    section, and under the heading of an invalid scene there is one, with a
    bullet for the first error at least. *)
Theorem report_agrees_with_status (self : validator) (scene_data : dict)
  (r : ValidationResult) (output_path : option string) (fs : filesystem) :
  validate_scene_json self scene_data = Ok r ->
  (valid r = true ->
   fst (generate_report r output_path fs)
   = String.concat newline
       (["# Scene Validation Report"; ""; "## ✅ Scene is valid"; ""]
        ++ report_section "## Warnings" (warnings r))%list)
  /\ (valid r = false ->
      exists first rest,
        errors r = first :: rest
        /\ fst (generate_report r output_path fs)
           = String.concat newline
               (["# Scene Validation Report"; ""; "## ❌ Scene is invalid";
                 ""; "## Errors"; bullet first]
                ++ map bullet rest ++ [""]
                ++ report_section "## Warnings" (warnings r))%list).
Proof.
  intros Hrun. pose proof (valid_reads_errors _ _ _ Hrun) as Hvalid.
  rewrite report_text. unfold report_layout.
  destruct (errors r) as [|first rest] eqn:Herrors; rewrite Hvalid; split;
    try discriminate; intros _.
  - reflexivity.
  - exists first, rest. split; [reflexivity|]. simpl.
    now rewrite <- app_assoc.
Qed.

Lemma report_agrees_with_status_witness :
  exists first rest,
    errors
      {| valid := false;
         errors := [VStr "prop moved"; VStr "coat changed"];
         warnings := [VStr "light is warmer"] |}
    = first :: rest
    /\ fst (generate_report
              {| valid := false;
                 errors := [VStr "prop moved"; VStr "coat changed"];
                 warnings := [VStr "light is warmer"] |}
              None open_disk)
       = String.concat newline
           (["# Scene Validation Report"; ""; "## ❌ Scene is invalid";
             ""; "## Errors"; bullet first]
            ++ map bullet rest ++ [""]
            ++ report_section "## Warnings" [VStr "light is warmer"])%list.
Proof.
  apply (proj2
           (report_agrees_with_status (with_defaults thorough_model)
              sequel_scene
              {| valid := false;
                 errors := [VStr "prop moved"; VStr "coat changed"];
                 warnings := [VStr "light is warmer"] |}
              None open_disk eq_refl)).
  reflexivity.
Defined.

(** ** A parsed document that is a dict *)

Lemma missing_among_dict (d : dict) (fields : list string) :
  missing_among (VDict d) fields
  = Ok (filter (fun field => negb (dict_has field d)) fields).
Proof.
  induction fields as [|field fields IH]; simpl; [reflexivity|].
  rewrite IH; simpl. now destruct (dict_has field d).
Qed.

Lemma document_technical_dict (self : validator) (d : dict)
  (errors : list value) :
  document_technical self (VDict d) errors = validate_technical self d errors.
Proof.
  unfold document_technical, validate_technical; simpl. unfold dict_has.
  now destruct (dict_get "technical" d).
Qed.

Lemma document_composition_dict (self : validator) (d : dict)
  (warnings : list value) :
  document_composition self (VDict d) warnings
  = validate_composition self d warnings.
Proof.
  unfold document_composition, validate_composition; simpl. unfold dict_has.
  destruct (dict_get "composition" d); simpl; [|reflexivity].
  destruct (py_getitem (rules self) "composition") as [section|]; simpl;
    [|reflexivity].
  destruct (py_getitem section "enforceRuleOfThirds") as [enforce|]; simpl;
    [|reflexivity].
  now destruct (py_truthy enforce).
Qed.

Lemma document_continuity_dict (self : validator) (d : dict)
  (errors warnings : list value) :
  document_continuity self (VDict d) errors warnings
  = lift (validate_continuity self d errors warnings).
Proof.
  unfold document_continuity, validate_continuity.
  destruct (py_getitem (rules self) "continuity") as [section|]; simpl;
    [|reflexivity].
  destruct (py_getitem section "checkProps") as [check_props|]; simpl;
    [|reflexivity].
  destruct (py_truthy check_props); [|reflexivity].
  change (match dict_get "previousScenes" d with
          | Some v => v
          | None => VList []
          end) with (previous_of d).
  destruct (py_len (previous_of d)) as [n|]; simpl; [|reflexivity].
  now destruct (Nat.ltb 0 n).
Qed.

Lemma validate_scene_document_dict (self : validator) (d : dict) :
  validate_scene_document self (VDict d) = lift (validate_scene_json self d).
Proof.
  unfold validate_scene_document, validate_scene_json, missing_fields.
  rewrite missing_among_dict. cbn [lift attempt_bind].
  destruct (filter (fun field => negb (dict_has field d)) required_fields);
    [|reflexivity].
  rewrite document_technical_dict.
  destruct (validate_technical self d []) as [errors|]; simpl;
    [|reflexivity].
  rewrite document_composition_dict.
  destruct (validate_composition self d []) as [warnings|]; simpl;
    [|reflexivity].
  rewrite document_continuity_dict.
  now destruct (validate_continuity self d errors warnings).
Qed.

Lemma document_valid_reads_errors (self : validator) (scene_data : value)
  (r : ValidationResult) :
  validate_scene_document self scene_data = Returned r ->
  valid r = match errors r with [] => true | _ :: _ => false end.
Proof.
  unfold validate_scene_document.
  destruct (missing_among scene_data required_fields) as [missing|]; simpl;
    [|discriminate].
  destruct missing.
  - destruct (document_technical self scene_data []) as [errs|]; simpl;
      [|discriminate].
    destruct (document_composition self scene_data []) as [warns|]; simpl;
      [|discriminate].
    destruct (document_continuity self scene_data errs warns) as [found|];
      simpl; [|discriminate].
    intros H. inversion H; subst; simpl. now destruct (fst found).
  - intros H. inversion H; subst. reflexivity.
Qed.

Lemma validate_fetched_in_step (describe : wording) (self : service)
  (prefix : string) (scene : fetched) :
  valid (validate_fetched describe self prefix scene) = true
  <-> errors (validate_fetched describe self prefix scene) = [].
Proof.
  unfold validate_fetched. destruct scene as [why|scene_data].
  - simpl. split; discriminate.
  - destruct (validate_scene_document (core self) scene_data) as [r|e] eqn:Hr.
    + rewrite (document_valid_reads_errors _ _ _ Hr).
      destruct (errors r); split; auto; discriminate.
    + simpl. split; discriminate.
Qed.

(** ** [validate_scene_file] and [validate_scene_from_gcs] *)

(** X11.  For a file or a blob that holds a JSON object, the two entry points
    return what [validate_scene_json] returns on it.  When that call raises,
    as on a technical block that is a number, the exception is caught by the
    handler meant for the loading, and the result says that the scene could
    not be loaded. *)
Theorem object_document_is_validated (describe : wording) (self : service)
  (d : dict) :
  let outcome (prefix : string) :=
    match validate_scene_json (core self) d with
    | Ok r => r
    | Raise e =>
        failure_result
          (prefix ++ describe (rules (core self)) (VDict d) (Builtin e))
    end in
  (forall read_scene file_path,
      read_scene file_path = Document (VDict d) ->
      validate_scene_file describe read_scene self file_path
      = outcome "Could not load scene file: ")
  /\ (forall client bucket_name blob_name,
         storage_client self = Some client ->
         client bucket_name blob_name = Document (VDict d) ->
         validate_scene_from_gcs describe self bucket_name blob_name
         = outcome "Could not load scene from GCS: ").
Proof.
  simpl. split.
  - intros read_scene file_path Hread.
    unfold validate_scene_file, validate_fetched. rewrite Hread.
    rewrite validate_scene_document_dict.
    now destruct (validate_scene_json (core self) d).
  - intros client bucket_name blob_name Hclient Hread.
    unfold validate_scene_from_gcs, validate_fetched.
    rewrite Hclient, Hread, validate_scene_document_dict.
    now destruct (validate_scene_json (core self) d).
Qed.

Lemma object_document_is_validated_witness :
  validate_scene_file plain_wording shelf local_service "orphan.json"
  = failure_result "Could not load scene file: TypeError"
  /\ validate_scene_from_gcs plain_wording cloud_service "dailies"
       "scene.json"
     = {| valid := false;
          errors := [VStr "prop moved"; VStr "coat changed"];
          warnings := [VStr "light is warmer"] |}.
Proof.
  split.
  - apply (proj1 (object_document_is_validated plain_wording local_service
                    orphan_scene) shelf "orphan.json").
    reflexivity.
  - apply (proj2 (object_document_is_validated plain_wording cloud_service
                    sequel_scene) bucket_store "dailies" "scene.json");
      reflexivity.
Defined.

(** X12.  Whatever the file or the blob holds, and whether it can be read at
    all, the two entry points return a result in which [valid] holds exactly
    when [errors] is empty. *)
Theorem entry_points_keep_valid_in_step (describe : wording)
  (self : service) :
  (forall read_scene file_path,
      valid (validate_scene_file describe read_scene self file_path) = true
      <-> errors (validate_scene_file describe read_scene self file_path)
          = [])
  /\ (forall bucket_name blob_name,
         valid (validate_scene_from_gcs describe self bucket_name blob_name)
         = true
         <-> errors
               (validate_scene_from_gcs describe self bucket_name blob_name)
             = []).
Proof.
  split.
  - intros read_scene file_path. apply validate_fetched_in_step.
  - intros bucket_name blob_name. unfold validate_scene_from_gcs.
    destruct (storage_client self).
    + apply validate_fetched_in_step.
    + simpl. split; discriminate.
Qed.

Lemma contains_no_such_name (items : list value) (field : string) :
  ~ In (VStr field) items ->
  py_contains (VStr field) (VList items) = Ok false.
Proof.
  intros Hout. simpl. f_equal.
  destruct (existsb (fun x => py_same_or_eq x (VStr field)) items) eqn:Hfound;
    [|reflexivity].
  apply existsb_exists in Hfound. destruct Hfound as (x & Hin & Heq).
  unfold py_same_or_eq in Heq.
  destruct x; simpl in Heq; try discriminate.
  apply String.eqb_eq in Heq. subst. contradiction.
Qed.

(** X13.  A file that parses to something else than an object is not refused
    as such.  On [null], a boolean or a number the membership test raises and
    the file is said not to have loaded.  An array is searched for the six
    field names as items: one that holds none of them is reported to miss all
    six fields. *)
Theorem document_that_is_no_object (describe : wording)
  (read_scene : string -> fetched) (self : service) (file_path : string) :
  (forall scene_data,
      read_scene file_path = Document scene_data ->
      scalar scene_data = true ->
      validate_scene_file describe read_scene self file_path
      = failure_result
          ("Could not load scene file: "
           ++ describe (rules (core self)) scene_data (Builtin TypeError)))
  /\ (forall items,
         read_scene file_path = Document (VList items) ->
         (forall field, In field required_fields -> ~ In (VStr field) items) ->
         validate_scene_file describe read_scene self file_path
         = failure_result
             ("Missing required fields: sceneName, sceneNumber, location, "
              ++ "timeOfDay, characters, props")).
Proof.
  split.
  - intros scene_data Hread Hscalar.
    unfold validate_scene_file, validate_fetched. rewrite Hread.
    destruct scene_data; try discriminate; reflexivity.
  - intros items Hread Hnone.
    unfold validate_scene_file, validate_fetched. rewrite Hread.
    unfold validate_scene_document, required_fields, missing_among.
    rewrite !contains_no_such_name
      by (apply Hnone; unfold required_fields; simpl; tauto).
    reflexivity.
Qed.

Lemma document_that_is_no_object_witness :
  validate_scene_file plain_wording shelf local_service "number.json"
  = failure_result "Could not load scene file: TypeError"
  /\ validate_scene_file plain_wording shelf local_service "array.json"
     = failure_result
         ("Missing required fields: sceneName, sceneNumber, location, "
          ++ "timeOfDay, characters, props").
Proof.
  split.
  - apply (proj1 (document_that_is_no_object plain_wording shelf
                    local_service "number.json") (VInt 42));
      reflexivity.
  - apply (proj2 (document_that_is_no_object plain_wording shelf
                    local_service "array.json")
             [VInt 1; VStr "props "]).
    + reflexivity.
    + intros field Hfield Hin. unfold required_fields in Hfield.
      simpl in Hfield, Hin.
      repeat (destruct Hfield as [<-|Hfield];
              [now repeat (destruct Hin as [Hin|Hin];
                           [discriminate Hin|])|]).
      contradiction.
Defined.

(** ** [__init__] *)

Lemma given_text (text : option string) :
  given text = true -> exists t, text = Some t /\ t <> "".
Proof.
  destruct text as [t|]; simpl; [|discriminate].
  destruct (String.eqb_spec t ""); [discriminate|]. eauto.
Qed.

Lemma init_missing_key (host : platform)
  (key service_account_path rules_path : option string) :
  given (if given key then key else environ_api_key host) = false ->
  init host key service_account_path rules_path = Refused MissingApiKey.
Proof.
  unfold init. destruct (if given key then key else environ_api_key host)
    as [chosen|]; simpl; [|reflexivity].
  now destruct (String.eqb chosen "").
Qed.

Lemma init_with_key (host : platform)
  (key service_account_path rules_path : option string) :
  given (if given key then key else environ_api_key host) = true ->
  init host key service_account_path rules_path
  = match
      (if given service_account_path
       then match connect_storage host (text_of service_account_path) with
            | Some client => Some (Some client)
            | None => None
            end
       else Some None)
    with
    | None => Refused CredentialsRejected
    | Some client =>
        Constructed
          {| api_key := text_of (if given key then key
                                 else environ_api_key host);
             core :=
               {| rules := _load_rules (json_load host) rules_path;
                  model :=
                    generative_model host
                      (text_of (if given key then key
                                else environ_api_key host)) |};
             storage_client := client |}
    end.
Proof.
  unfold init. destruct (if given key then key else environ_api_key host)
    as [chosen|]; simpl; [|discriminate].
  destruct (String.eqb chosen ""); [discriminate | reflexivity].
Qed.

(** X14.  The constructor refuses for want of a key exactly when neither the
    argument nor [GEMINI_API_KEY] gives a non-empty string, and it does so
    before it looks at the credentials.  Otherwise the key of the instance is
    the argument when that is non-empty, the variable when not; the
    collaborator is opened with that key and the rules are those of
    [_load_rules] on the rules path. *)
Theorem init_resolves_the_key (host : platform)
  (key service_account_path rules_path : option string) :
  (init host key service_account_path rules_path = Refused MissingApiKey
   <-> given key = false /\ given (environ_api_key host) = false)
  /\ (forall self,
         init host key service_account_path rules_path = Constructed self ->
         api_key self
         = text_of (if given key then key else environ_api_key host)
         /\ api_key self <> ""
         /\ model (core self) = generative_model host (api_key self)
         /\ rules (core self) = _load_rules (json_load host) rules_path).
Proof.
  destruct (given (if given key then key else environ_api_key host))
    eqn:Hchosen.
  - rewrite (init_with_key _ _ _ _ Hchosen). split.
    + split.
      * destruct (given service_account_path);
          [destruct (connect_storage host (text_of service_account_path))|];
          discriminate.
      * intros [Hkey Henv]. rewrite Hkey in Hchosen. congruence.
    + intros self Hself.
      assert (Hkey : api_key self
                     = text_of (if given key then key
                                else environ_api_key host)
                     /\ model (core self)
                        = generative_model host (api_key self)
                     /\ rules (core self)
                        = _load_rules (json_load host) rules_path).
      { destruct (given service_account_path);
          [destruct (connect_storage host (text_of service_account_path))|];
          inversion Hself; subst; simpl; auto. }
      destruct Hkey as (Hkey & Hmodel & Hrules).
      repeat split; auto.
      rewrite Hkey. destruct (given_text _ Hchosen) as (t & -> & Ht).
      exact Ht.
  - rewrite (init_missing_key _ _ _ _ Hchosen). split.
    + split; [|reflexivity]. intros _.
      destruct (given key) eqn:Hkey; [congruence | auto].
    + discriminate.
Qed.

Lemma init_resolves_the_key_witness :
  api_key
    {| api_key := "env-key";
       core := {| rules := default_rules; model := thorough_model |};
       storage_client := None |}
  = text_of (if given (Some "") then Some ""
             else environ_api_key example_host).
Proof.
  apply (proj1 (proj2 (init_resolves_the_key example_host (Some "") None
                         None)
                  {| api_key := "env-key";
                     core :=
                       {| rules := default_rules; model := thorough_model |};
                     storage_client := None |}
                  eq_refl)).
Defined.

(** X15.  An instance built without a service-account path, or with an empty
    one, has no storage client: every request to validate a blob, whatever the
    bucket and the blob, gets the one fixed error and no storage is asked. *)
Theorem gcs_needs_a_service_account (host : platform)
  (key service_account_path rules_path : option string) (self : service)
  (describe : wording) (bucket_name blob_name : string) :
  init host key service_account_path rules_path = Constructed self ->
  given service_account_path = false ->
  validate_scene_from_gcs describe self bucket_name blob_name
  = failure_result "Google Cloud Storage client not initialized".
Proof.
  intros Hself Hnone.
  destruct (given (if given key then key else environ_api_key host))
    eqn:Hchosen.
  - rewrite (init_with_key _ _ _ _ Hchosen), Hnone in Hself.
    inversion Hself; subst. reflexivity.
  - rewrite (init_missing_key _ _ _ _ Hchosen) in Hself. discriminate.
Qed.

Lemma gcs_needs_a_service_account_witness :
  validate_scene_from_gcs plain_wording
    {| api_key := "env-key";
       core :=
         {| rules := default_rules; model := thorough_model |};
       storage_client := None |}
    "dailies" "scene.json"
  = failure_result "Google Cloud Storage client not initialized".
Proof.
  apply (gcs_needs_a_service_account example_host None (Some "") None
           {| api_key := "env-key";
              core :=
                {| rules := default_rules; model := thorough_model |};
              storage_client := None |}
           plain_wording "dailies" "scene.json");
    reflexivity.
Defined.

(** ** [main] *)

(** X16.  When [--scene-file] is given, the bucket and the blob are not looked
    at: the run is the one of the same command line without them. *)
Theorem scene_file_comes_first (host : platform) (args : Cli.arguments)
  (fs : filesystem) :
  given (Cli.scene_file args) = true ->
  Cli.main host args fs = Cli.main host (without_gcs args) fs.
Proof.
  intros Hfile. unfold Cli.main, without_gcs; simpl.
  destruct (init host (Cli.api_key args) (Cli.service_account args)
              (Cli.rules_file args)); [reflexivity|].
  now rewrite Hfile.
Qed.

Lemma scene_file_comes_first_witness :
  Cli.main example_host local_run open_disk
  = Cli.main example_host (without_gcs local_run) open_disk.
Proof.
  apply (scene_file_comes_first example_host local_run open_disk).
  reflexivity.
Defined.

(** X17.  A command line without a scene file and without both a bucket and a
    blob gets the usage message as its only output, and no file is written,
    [--output] or not.  The message comes after the validator is built: when
    the constructor raises, the run ends with its exception and the message is
    not printed. *)
Theorem no_source_prints_usage (host : platform) (args : Cli.arguments)
  (fs : filesystem) :
  names_a_source args = false ->
  Cli.main host args fs
  = match
      init host (Cli.api_key args) (Cli.service_account args)
        (Cli.rules_file args)
    with
    | Refused why => Cli.Aborted why
    | Constructed _ =>
        Cli.Exited
          ["Error: Either --scene-file or both --gcs-bucket and --gcs-blob are required"]
          fs
    end.
Proof.
  unfold names_a_source. intros Hnone.
  apply orb_false_iff in Hnone. destruct Hnone as [Hfile Hgcs].
  unfold Cli.main.
  destruct (init host (Cli.api_key args) (Cli.service_account args)
              (Cli.rules_file args)); [reflexivity|].
  now rewrite Hfile, Hgcs.
Qed.

Lemma no_source_prints_usage_witness :
  Cli.main example_host sourceless_run open_disk
  = Cli.Exited
      ["Error: Either --scene-file or both --gcs-bucket and --gcs-blob are required"]
      open_disk.
Proof.
  apply (no_source_prints_usage example_host sourceless_run open_disk).
  reflexivity.
Defined.

(** X18.  A run that names a source and returns prints one text, the
    report.  When [--output] names a path that can be written, the file at
    that path holds the printed text afterwards. *)
Theorem printed_report_is_the_saved_one (host : platform)
  (args : Cli.arguments) (fs fs' : filesystem) (printed : list string)
  (path : string) :
  names_a_source args = true ->
  Cli.output args = Some path ->
  path <> "" ->
  refuses fs path = false ->
  Cli.main host args fs = Cli.Exited printed fs' ->
  exists report,
    printed = [report] /\ dict_get path (contents fs') = Some report.
Proof.
  intros Hsource Houtput Hpath Hopen Hrun.
  assert (Hreport : forall result,
    Cli.report_and_print result args fs = Cli.Exited printed fs' ->
    exists report,
      printed = [report] /\ dict_get path (contents fs') = Some report).
  { intros result. unfold Cli.report_and_print. rewrite Houtput.
    intros H. inversion H; subst.
    exists (fst (generate_report result (Some path) fs)).
    split; [reflexivity|].
    unfold generate_report.
    destruct (String.eqb_spec path ""); [contradiction|].
    unfold write_text. rewrite Hopen; simpl. apply dict_get_set_eq. }
  unfold Cli.main in Hrun. unfold names_a_source in Hsource.
  destruct (init host (Cli.api_key args) (Cli.service_account args)
              (Cli.rules_file args)); [discriminate|].
  destruct (given (Cli.scene_file args)); [eapply Hreport; exact Hrun|].
  simpl in Hsource. rewrite Hsource in Hrun. eapply Hreport; exact Hrun.
Qed.

Lemma printed_report_is_the_saved_one_witness :
  exists report fs',
    Cli.main example_host local_run open_disk = Cli.Exited [report] fs'
    /\ dict_get "report.md" (contents fs') = Some report.
Proof.
  destruct (Cli.main example_host local_run open_disk)
    as [why|printed fs'] eqn:Hrun; [discriminate Hrun|].
  destruct (printed_report_is_the_saved_one example_host local_run open_disk
              fs' printed "report.md" eq_refl eq_refl
              ltac:(discriminate) eq_refl Hrun)
    as (report & Hprinted & Hsaved).
  exists report, fs'. split.
  - now rewrite Hprinted.
  - exact Hsaved.
Defined.

(** X19.  Without a key, in the argument or in [GEMINI_API_KEY], a run ends
    in the constructor: nothing is validated, printed or written, also for
    a local scene file whose validation would never call the
    collaborator. *)
Theorem no_key_no_run (host : platform) (args : Cli.arguments)
  (fs : filesystem) :
  given (Cli.api_key args) = false ->
  given (environ_api_key host) = false ->
  Cli.main host args fs = Cli.Aborted MissingApiKey.
Proof.
  intros Hkey Henv. unfold Cli.main.
  rewrite init_missing_key; [reflexivity|]. now rewrite Hkey.
Qed.

Lemma no_key_no_run_witness :
  Cli.main keyless_host local_run open_disk = Cli.Aborted MissingApiKey.
Proof.
  apply (no_key_no_run keyless_host local_run open_disk); reflexivity.
Defined.

(** ** What the later checks can do to the earlier findings *)

(** X20.  In a result for a scene with all required fields, the errors of
    the technical check come first and the warnings of the composition
    check come first: the continuity check and the reply of the
    collaborator only add behind them.  A scene with a technical error is
    invalid whatever the collaborator replies. *)
Theorem later_checks_only_add (self : validator) (scene_data : dict)
  (r : ValidationResult) :
  missing_fields scene_data = [] ->
  validate_scene_json self scene_data = Ok r ->
  exists technical composition,
    validate_technical self scene_data [] = Ok technical
    /\ validate_composition self scene_data [] = Ok composition
    /\ (exists more, errors r = (technical ++ more)%list)
    /\ (exists more, warnings r = (composition ++ more)%list)
    /\ (technical <> [] -> valid r = false).
Proof.
  intros Hreq. unfold validate_scene_json. rewrite Hreq.
  destruct (validate_technical self scene_data []) as [technical|]; simpl;
    [|discriminate].
  destruct (validate_composition self scene_data []) as [composition|];
    simpl; [|discriminate].
  rewrite validate_continuity_appends.
  destruct (validate_continuity self scene_data [] []) as [found|]; simpl;
    [|discriminate].
  intros H. inversion H; subst; simpl.
  exists technical, composition. repeat split; eauto.
  intros Hsome. destruct technical; [contradiction | reflexivity].
Qed.

Lemma later_checks_only_add_witness :
  exists technical composition,
    validate_technical (with_defaults thorough_model) flawed_sequel []
    = Ok technical
    /\ validate_composition (with_defaults thorough_model) flawed_sequel []
       = Ok composition
    /\ (exists more,
           [ VStr ("Invalid resolution: 720x480. Must be one of "
                   ++ "['1920x1080', '3840x2160', '4096x2160']");
             VStr "prop moved"; VStr "coat changed" ]
           = (technical ++ more)%list)
    /\ (exists more, [VStr "light is warmer"] = (composition ++ more)%list)
    /\ (technical <> [] -> false = false).
Proof.
  apply (later_checks_only_add (with_defaults thorough_model) flawed_sequel
           {| valid := false;
              errors :=
                [ VStr ("Invalid resolution: 720x480. Must be one of "
                        ++ "['1920x1080', '3840x2160', '4096x2160']");
                  VStr "prop moved"; VStr "coat changed" ];
              warnings := [VStr "light is warmer"] |});
    reflexivity.
Defined.

End SceneValidator.
